(** * Period resolution and timestamp helpers of [web.py]

    A shallow embedding of the three helpers of [web.py] that carry logic:
    [_parse_hhmm_or_hhmmss], [resolve_period_for] (with [load_timetable])
    and [normalize_ts], together with the parts of Python's [datetime]
    module they call ([strptime], [strftime], the [time] ordering).

    Conventions.
    - A Python [str] is a [string]; each [ascii] is read as the code point
      of the same number (0..255).
    - Python integers are [Z].
    - A call either returns a value or raises: [outcome A].  Python's [None]
      is [None] of an [option].
    - [strftime] is the C library's: the model follows glibc, which writes
      the year of [%Y] without padding.
    - A row fetched from the database is a tuple, as the default cursor of
      psycopg2 gives it. *)

From Stdlib Require Import ZArith List Bool Lia Ascii String.
From stdpp Require Import base list.

Local Open Scope string_scope.
Local Open Scope Z_scope.

(** ** Exceptions *)

Inductive exn : Type :=
| ValueError
| IndexError
| TypeError.

Inductive outcome (A : Type) : Type :=
| Return (a : A)
| Raise (e : exn).

Arguments Return {A} a.
Arguments Raise {A} e.

Definition obind {A B : Type} (m : outcome A) (k : A -> outcome B) : outcome B :=
  match m with
  | Return a => k a
  | Raise e => Raise e
  end.

Notation "x <-- m ;; k" := (obind m (fun x => k))
  (at level 100, m at next level, right associativity).

(** [try: body except ValueError: handler] *)
Definition try_except_ValueError {A : Type} (body : outcome A) (handler : outcome A)
  : outcome A :=
  match body with
  | Raise ValueError => handler
  | other => other
  end.

(** ** [datetime.time] and [datetime.datetime] values *)

Record time : Type := mk_time
  { hour : Z; minute : Z; second : Z; microsecond : Z }.

Record datetime : Type := mk_datetime
  { dt_year : Z; dt_month : Z; dt_day : Z;
    dt_hour : Z; dt_minute : Z; dt_second : Z; dt_microsecond : Z }.

(** [datetime.time()] *)
Definition dt_time (d : datetime) : time :=
  mk_time (dt_hour d) (dt_minute d) (dt_second d) (dt_microsecond d).

(** [time._cmp]: the tuples (hour, minute, second, microsecond) are compared
    lexicographically. *)
Definition lex (c1 c2 : comparison) : comparison :=
  match c1 with
  | Eq => c2
  | _ => c1
  end.

Definition time_cmp (a b : time) : comparison :=
  lex (hour a ?= hour b)
   (lex (minute a ?= minute b)
     (lex (second a ?= second b) (microsecond a ?= microsecond b))).

(** [a < b], [a <= b], [a >= b] on [time] *)
Definition time_lt (a b : time) : bool :=
  match time_cmp a b with Lt => true | _ => false end.

Definition time_le (a b : time) : bool :=
  match time_cmp a b with Gt => false | _ => true end.

Definition time_ge (a b : time) : bool :=
  match time_cmp a b with Lt => false | _ => true end.

(** ** The timetable *)

(** One element of the list built by [load_timetable]:
    [{"period": .., "start": .., "end": ..}]. *)
Record rec : Type := mk_rec
  { period : Z; start : time; end_ : time }.

(** [rec["start"] <= t < rec["end"]] *)
Definition contains (r : rec) (t : time) : bool :=
  time_le (start r) t && time_lt t (end_ r).

(** [for rec in ttable: if rec["start"] <= t < rec["end"]: return rec] *)
Fixpoint scan_containing (ttable : list rec) (t : time) : option rec :=
  match ttable with
  | [] => None
  | r :: rest => if contains r t then Some r else scan_containing rest t
  end.

(** [for i in range(len(ttable)-1):
       if ttable[i]["end"] <= t < ttable[i+1]["start"]: return ttable[i+1]]
    run over the list of indices; [None] when the loop falls through. *)
Fixpoint scan_gaps (ttable : list rec) (t : time) (idx : list nat)
  : outcome (option rec) :=
  match idx with
  | [] => Return None
  | i :: idx' =>
      match ttable !! i, ttable !! (i + 1)%nat with
      | Some a, Some b =>
          if time_le (end_ a) t && time_lt t (start b)
          then Return (Some b)
          else scan_gaps ttable t idx'
      | _, _ => Raise IndexError
      end
  end.

(** The body of [resolve_period_for] once [load_timetable()] has returned
    [ttable] (lines 139-156). *)
Definition resolve_period (ttable : list rec) (ts_dt : datetime)
  : outcome (option rec) :=
  match ttable with
  | [] => Return None
  | _ :: _ =>
      let t := dt_time ts_dt in
      match scan_containing ttable t with
      | Some r => Return (Some r)
      | None =>
          match ttable !! 0%nat, last ttable with
          | Some first_rec, Some last_rec =>
              if time_lt t (start first_rec) then Return (Some first_rec)
              else if time_ge t (end_ last_rec) then Return (Some last_rec)
              else
                found <-- scan_gaps ttable t (seq 0 (length ttable - 1)) ;;
                match found with
                | Some r => Return (Some r)
                | None => Return (Some last_rec)
                end
          | _, _ => Raise IndexError
          end
      end
  end.

(** ** Python strings *)

Infix "+:+" := String.append (at level 60, right associativity).

Definition code (c : ascii) : Z := Z.of_N (N_of_ascii c).

(** [str.isspace] of one character, which is also the class [\s] of [re]:
    below 256 the white-space code points are 9..13, 28..32, 133 and 160. *)
Definition is_space (c : ascii) : bool :=
  let n := code c in
  ((9 <=? n) && (n <=? 13)) || ((28 <=? n) && (n <=? 32))
  || (n =? 133) || (n =? 160).

(** The class [\d] of [re]: below 256 the decimal digits are '0'..'9'. *)
Definition is_digit (c : ascii) : bool :=
  let n := code c in (48 <=? n) && (n <=? 57).

Definition digit_value (c : ascii) : Z := code c - 48.

Definition digit_char (d : Z) : ascii := ascii_of_N (Z.to_N (48 + d)).

(** [s.lstrip()], [s.rstrip()], [s.strip()] *)
Fixpoint lstrip (s : string) : string :=
  match s with
  | String c s' => if is_space c then lstrip s' else s
  | EmptyString => EmptyString
  end.

Fixpoint rstrip (s : string) : string :=
  match s with
  | String c s' =>
      match rstrip s' with
      | EmptyString => if is_space c then EmptyString else String c EmptyString
      | kept => String c kept
      end
  | EmptyString => EmptyString
  end.

Definition strip (s : string) : string := rstrip (lstrip s).

(** [s.replace(old, new)] for one-character [old] and [new] *)
Fixpoint replace (old new : ascii) (s : string) : string :=
  match s with
  | String c s' => String (if Ascii.eqb c old then new else c) (replace old new s')
  | EmptyString => EmptyString
  end.

(** [s.split(sep)] for a one-character separator: never the empty list *)
Fixpoint split (sep : ascii) (s : string) : list string :=
  match s with
  | EmptyString => [EmptyString]
  | String c s' =>
      if Ascii.eqb c sep then EmptyString :: split sep s'
      else match split sep s' with
           | p :: ps => String c p :: ps
           | [] => [String c EmptyString]
           end
  end.

(** ["0" * n] *)
Fixpoint zeros (n : nat) : string :=
  match n with
  | O => EmptyString
  | S n' => String "0" (zeros n')
  end.

(** [s.zfill(width)]: the zeros go after a leading sign *)
Definition zfill (width : nat) (s : string) : string :=
  if (width <=? String.length s)%nat then s
  else
    let fill := zeros (width - String.length s) in
    match s with
    | String c s' =>
        if Ascii.eqb c "+" || Ascii.eqb c "-" then String c (fill +:+ s')
        else fill +:+ s
    | EmptyString => fill
    end.

(** [str(n)] of an integer *)
Fixpoint decimal_digits (fuel : nat) (n : Z) (acc : string) : string :=
  match fuel with
  | O => acc
  | S fuel' =>
      let acc' := String (digit_char (n mod 10)) acc in
      if n / 10 =? 0 then acc' else decimal_digits fuel' (n / 10) acc'
  end.

Definition str_of_int (n : Z) : string :=
  if n <? 0
  then String "-" (decimal_digits (S (Z.to_nat (Z.log2 (- n)))) (- n) EmptyString)
  else decimal_digits (S (Z.to_nat (Z.log2 n))) n EmptyString.

(** [int(s)] on the texts a group of [TimeRE] can capture: decimal digits,
    possibly after white space (the [" [1-9]"] alternative of [%d]).
    Signs and underscores, which [int] also reads, never occur there. *)
Fixpoint digits_value (acc : Z) (s : string) : option Z :=
  match s with
  | EmptyString => Some acc
  | String c s' =>
      if is_digit c then digits_value (10 * acc + digit_value c) s' else None
  end.

Definition int (s : string) : outcome Z :=
  match strip s with
  | EmptyString => Raise ValueError
  | digits =>
      match digits_value 0 digits with
      | Some n => Return n
      | None => Raise ValueError
      end
  end.

(** ** The regular expressions of [_strptime.TimeRE] *)

(** Character classes. *)
Inductive cls : Type :=
| Lit (c : ascii)          (* the character itself *)
| Range (lo hi : ascii)    (* [lo-hi] *)
| AnyDigit                 (* \d *)
| AnySpace.                (* \s *)

Inductive regex : Type :=
| One (k : cls)
| Many1 (k : cls) (max : option nat)   (* k+ and k{1,max}, greedy *)
| Cat (r1 r2 : regex)
| Alt (r1 r2 : regex)
| Group (name : ascii) (r : regex).    (* (?P<name>r) *)

Definition cls_test (k : cls) (c : ascii) : bool :=
  match k with
  | Lit c' => Ascii.eqb c c'
  | Range lo hi => (code lo <=? code c) && (code c <=? code hi)
  | AnyDigit => is_digit c
  | AnySpace => is_space c
  end.

(** The ways [k{1,fuel}] matches at the head of [s], longest first, each as
    (matched text, rest). *)
Fixpoint match_many1 (k : cls) (fuel : nat) (s : string) : list (string * string) :=
  match fuel, s with
  | S fuel', String c s' =>
      if cls_test k c
      then (map (fun '(m, r) => (String c m, r)) (match_many1 k fuel' s')
            ++ [(String c EmptyString, s')])%list
      else []
  | _, _ => []
  end.

Definition groupdict : Type := list (ascii * string).

(** All the ways [r] matches at the head of [s], in the order a backtracking
    matcher tries them: (matched text, rest, named groups). *)
Fixpoint rmatch (r : regex) (s : string) : list (string * string * groupdict) :=
  match r with
  | One k =>
      match s with
      | String c s' =>
          if cls_test k c then [(String c EmptyString, s', [])] else []
      | EmptyString => []
      end
  | Many1 k max =>
      let fuel := match max with Some n => n | None => String.length s end in
      map (fun '(m, s') => (m, s', [])) (match_many1 k fuel s)
  | Cat r1 r2 =>
      flat_map (fun '(m1, s1, g1) =>
                  map (fun '(m2, s2, g2) => (m1 +:+ m2, s2, (g1 ++ g2)%list))
                      (rmatch r2 s1))
               (rmatch r1 s)
  | Alt r1 r2 => (rmatch r1 s ++ rmatch r2 s)%list
  | Group name r' =>
      map (fun '(m, s', g) => (m, s', (g ++ [(name, m)])%list)) (rmatch r' s)
  end.

(** A pattern is the sequence of its items: the ways the whole sequence
    matches at the head of [s], each as (rest, named groups). *)
Fixpoint match_seq (rs : list regex) (s : string) : list (string * groupdict) :=
  match rs with
  | [] => [(s, [])]
  | r :: rs' =>
      flat_map (fun '(_, s1, g1) =>
                  map (fun '(s2, g2) => (s2, (g1 ++ g2)%list)) (match_seq rs' s1))
               (rmatch r s)
  end.

Definition digit : regex := One AnyDigit.
Definition chr (c : ascii) : regex := One (Lit c).
Definition rng (lo hi : ascii) : regex := One (Range lo hi).

(** The regular expressions of the directives the program's formats use:
    [(?P<Y>\d\d\d\d)], [(?P<m>1[0-2]|0[1-9]|[1-9])],
    [(?P<d>3[0-1]|[1-2]\d|0[1-9]|[1-9]| [1-9])], [(?P<H>2[0-3]|[0-1]\d|\d)],
    [(?P<M>[0-5]\d|\d)], [(?P<S>6[0-1]|[0-5]\d|\d)], [(?P<f>[0-9]{1,6})]. *)
Definition re_Y : regex := Group "Y" (Cat digit (Cat digit (Cat digit digit))).

Definition re_m : regex :=
  Group "m" (Alt (Cat (chr "1") (rng "0" "2"))
            (Alt (Cat (chr "0") (rng "1" "9"))
                 (rng "1" "9"))).

Definition re_d : regex :=
  Group "d" (Alt (Cat (chr "3") (rng "0" "1"))
            (Alt (Cat (rng "1" "2") digit)
            (Alt (Cat (chr "0") (rng "1" "9"))
            (Alt (rng "1" "9")
                 (Cat (chr " ") (rng "1" "9")))))).

Definition re_H : regex :=
  Group "H" (Alt (Cat (chr "2") (rng "0" "3"))
            (Alt (Cat (rng "0" "1") digit)
                 digit)).

Definition re_M : regex := Group "M" (Alt (Cat (rng "0" "5") digit) digit).

Definition re_S : regex :=
  Group "S" (Alt (Cat (chr "6") (rng "0" "1"))
            (Alt (Cat (rng "0" "5") digit)
                 digit)).

Definition re_f : regex := Group "f" (Many1 (Range "0" "9") (Some 6%nat)).

Definition spaces : regex := Many1 AnySpace None.

(** [TimeRE.__getitem__] *)
Definition TimeRE (directive : ascii) : option regex :=
  match directive with
  | "Y"%char => Some re_Y
  | "m"%char => Some re_m
  | "d"%char => Some re_d
  | "H"%char => Some re_H
  | "M"%char => Some re_M
  | "S"%char => Some re_S
  | "f"%char => Some re_f
  | _ => None
  end.

(** [TimeRE.pattern]: a run of white space in the format becomes [\s+], a
    directive becomes its regular expression, any other character stands for
    itself.  [None] is the [ValueError] for a bad directive or a stray [%].
    (The pattern is compiled with [IGNORECASE]; the literal characters of
    the program's formats have no case.) *)
Fixpoint pattern_from (in_space : bool) (format : string) : option (list regex) :=
  match format with
  | EmptyString => Some []
  | String "%" EmptyString => None
  | String "%" (String directive rest) =>
      match TimeRE directive, pattern_from false rest with
      | Some r, Some rs => Some (r :: rs)
      | _, _ => None
      end
  | String c rest =>
      if is_space c then
        if in_space then pattern_from true rest
        else option_map (cons spaces) (pattern_from true rest)
      else option_map (cons (chr c)) (pattern_from false rest)
  end.

Definition pattern (format : string) : option (list regex) :=
  pattern_from false format.

(** ** [datetime.strptime] and [datetime.strftime] *)

Definition is_leap (year : Z) : bool :=
  (year mod 4 =? 0) && (negb (year mod 100 =? 0) || (year mod 400 =? 0)).

Definition days_in_month (year month : Z) : Z :=
  if month =? 2 then (if is_leap year then 29 else 28)
  else if (month =? 4) || (month =? 6) || (month =? 9) || (month =? 11) then 30
  else 31.

Definition between (lo x hi : Z) : bool := (lo <=? x) && (x <=? hi).

(** The constructor [datetime(year, month, day, hour, minute, second,
    microsecond)] with its range checks. *)
Definition datetime_new (year month day hour minute second microsecond : Z)
  : outcome datetime :=
  if negb (between 1 year 9999) then Raise ValueError
  else if negb (between 1 month 12) then Raise ValueError
  else if negb (between 1 day (days_in_month year month)) then Raise ValueError
  else if negb (between 0 hour 23) then Raise ValueError
  else if negb (between 0 minute 59) then Raise ValueError
  else if negb (between 0 second 59) then Raise ValueError
  else if negb (between 0 microsecond 999999) then Raise ValueError
  else Return (mk_datetime year month day hour minute second microsecond).

(** The loop of [_strptime] over [found.groupdict()].  The fields start at
    1900-01-01 00:00:00.0 (a format with a month and a day but no year is
    checked against 1904 first and then built with 1900; here the answer is
    the same [ValueError] either way). *)
Definition convert_group (acc : datetime) (kv : ascii * string) : outcome datetime :=
  let '(group_key, text) := kv in
  let '(mk_datetime year month day hour minute second fraction) := acc in
  match group_key with
  | "Y"%char =>
      n <-- int text ;; Return (mk_datetime n month day hour minute second fraction)
  | "m"%char =>
      n <-- int text ;; Return (mk_datetime year n day hour minute second fraction)
  | "d"%char =>
      n <-- int text ;; Return (mk_datetime year month n hour minute second fraction)
  | "H"%char =>
      n <-- int text ;; Return (mk_datetime year month day n minute second fraction)
  | "M"%char =>
      n <-- int text ;; Return (mk_datetime year month day hour n second fraction)
  | "S"%char =>
      n <-- int text ;; Return (mk_datetime year month day hour minute n fraction)
  | "f"%char =>
      n <-- int (text +:+ zeros (6 - String.length text)) ;;
      Return (mk_datetime year month day hour minute second n)
  | _ => Return acc
  end.

Fixpoint convert_groups (acc : datetime) (found_dict : groupdict) : outcome datetime :=
  match found_dict with
  | [] => Return acc
  | kv :: rest => acc' <-- convert_group acc kv ;; convert_groups acc' rest
  end.

Definition strptime (data_string format : string) : outcome datetime :=
  match pattern format with
  | None => Raise ValueError
  | Some format_regex =>
      match match_seq format_regex data_string with
      | [] => Raise ValueError                       (* does not match format *)
      | (EmptyString, found_dict) :: _ =>
          f <-- convert_groups (mk_datetime 1900 1 1 0 0 0 0) found_dict ;;
          datetime_new (dt_year f) (dt_month f) (dt_day f)
                       (dt_hour f) (dt_minute f) (dt_second f) (dt_microsecond f)
      | (String _ _, _) :: _ => Raise ValueError     (* unconverted data remains *)
      end
  end.

(** One directive of [strftime], which [datetime] hands to the C library:
    [%Y] is the year in decimal as glibc writes it, without padding (999 for
    the year 999, 2025 for 2025); the other fields are written on two
    digits, padded with zeros. *)
Definition strftime_directive (directive : ascii) (dt : datetime) : option string :=
  match directive with
  | "Y"%char => Some (str_of_int (dt_year dt))
  | "m"%char => Some (zfill 2 (str_of_int (dt_month dt)))
  | "d"%char => Some (zfill 2 (str_of_int (dt_day dt)))
  | "H"%char => Some (zfill 2 (str_of_int (dt_hour dt)))
  | "M"%char => Some (zfill 2 (str_of_int (dt_minute dt)))
  | "S"%char => Some (zfill 2 (str_of_int (dt_second dt)))
  | _ => None
  end.

Fixpoint strftime (dt : datetime) (format : string) : string :=
  match format with
  | EmptyString => EmptyString
  | String "%" (String directive rest) =>
      match strftime_directive directive dt with
      | Some text => text +:+ strftime dt rest
      | None => String "%" (String directive (strftime dt rest))
      end
  | String c rest => String c (strftime dt rest)
  end.

(** ** The helpers of [web.py] *)

(** The loop [for fmt in (..): try: return strptime(s, fmt).time()
    except ValueError: pass]; [None] when it falls through. *)
Fixpoint try_time_formats (s : string) (fmts : list string) : outcome (option time) :=
  match fmts with
  | [] => Return None
  | fmt :: fmts' =>
      try_except_ValueError
        (dt <-- strptime s fmt ;; Return (Some (dt_time dt)))
        (try_time_formats s fmts')
  end.

(** [_parse_hhmm_or_hhmmss] (lines 93-107) *)
Definition _parse_hhmm_or_hhmmss (s : option string) : outcome time :=
  let s := strip (match s with Some text => text | None => EmptyString end) in
  found <-- try_time_formats s ["%H:%M"; "%H:%M:%S"] ;;
  match found with
  | Some t => Return t
  | None =>
      match split ":" s with
      | [h; m] =>
          let h := zfill 2 h in
          let m := zfill 2 m in
          dt <-- strptime (h +:+ ":" +:+ m) "%H:%M" ;;
          Return (dt_time dt)
      | _ => Raise ValueError
      end
  end.

(** A row of the table [TimeTable] as the query of [load_timetable] returns
    it.  [get_conn] (lines 31-35) connects with [psycopg2.connect] and no
    cursor factory, so [fetchall] gives tuples, here of the columns 時限,
    開始時刻 and 終了時刻 (a small integer and two times of day); the other
    queries of the file read their rows by position, [row[0]]. *)
Record row : Type := mk_row
  { row_period : Z; row_start : time; row_end : time }.

(** [r[key]] with a text for [key]: a tuple takes integers and slices
    only, and raises [TypeError] whatever it holds. *)
Definition getitem_str {A : Type} (r : row) (key : string) : outcome A :=
  Raise TypeError.

(** [load_timetable] (lines 116-135), on the rows the query returned, which
    come ordered by period. *)
Fixpoint load_timetable (rows : list row) : outcome (list rec) :=
  match rows with
  | [] => Return []
  | r :: rows' =>
      start_text <-- getitem_str r "開始時刻" ;;
      start_t <-- _parse_hhmm_or_hhmmss start_text ;;
      end_text <-- getitem_str r "終了時刻" ;;
      end_t <-- _parse_hhmm_or_hhmmss end_text ;;
      p <-- getitem_str r "時限" ;;
      result <-- load_timetable rows' ;;
      Return (mk_rec p start_t end_t :: result)
  end.

(** [resolve_period_for] (lines 137-156), on the rows of the store *)
Definition resolve_period_for (rows : list row) (ts_dt : datetime)
  : outcome (option rec) :=
  ttable <-- load_timetable rows ;;
  resolve_period ttable ts_dt.

(** The loop of [normalize_ts] over [fmts] *)
Fixpoint try_ts_formats (s : string) (fmts : list string) : outcome (option string) :=
  match fmts with
  | [] => Return None
  | f :: fmts' =>
      try_except_ValueError
        (dt <-- strptime s f ;; Return (Some (strftime dt "%Y-%m-%d %H:%M:%S")))
        (try_ts_formats s fmts')
  end.

Definition fmts : list string :=
  ["%Y-%m-%d %H:%M"; "%Y-%m-%d %H:%M:%S"; "%Y-%m-%d %H:%M:%S.%f"].

(** [normalize_ts] (lines 159-170) *)
Definition normalize_ts (ts_input : option string) : outcome (option string) :=
  match ts_input with
  | None => Return None
  | Some EmptyString => Return None
  | Some ts =>
      let s := replace "T" " " (strip ts) in
      try_ts_formats s fmts
  end.


(** ** Well-formed timetables *)

(** Every interval has [start < end], and each interval ends no later than
    the next one starts: the list is in ascending order and no two intervals
    overlap. *)
Fixpoint ordered (ttable : list rec) : bool :=
  match ttable with
  | [] => true
  | a :: rest =>
      time_lt (start a) (end_ a)
      && match rest with
         | b :: _ => time_le (end_ a) (start b)
         | [] => true
         end
      && ordered rest
  end.

Definition well_formed (ttable : list rec) : bool :=
  match ttable with
  | [] => false
  | _ :: _ => ordered ttable
  end.

(** The timetable of the specification's scenario, and one whose first two
    periods are adjacent. *)
Definition hm (h m : Z) : time := mk_time h m 0 0.

Definition period1 : rec := mk_rec 1 (hm 8 50) (hm 10 30).
Definition period2 : rec := mk_rec 2 (hm 10 35) (hm 12 15).
Definition period3 : rec := mk_rec 3 (hm 13 0) (hm 14 40).
Definition period2' : rec := mk_rec 2 (hm 10 30) (hm 12 15).

Definition timetable_gaps : list rec := [period1; period2; period3].
Definition timetable_adjacent : list rec := [period1; period2'; period3].

Definition at_time (h m : Z) : datetime := mk_datetime 2025 4 8 h m 0 0.

(** The rows of the store behind [timetable_gaps]. *)
Definition scenario_rows : list row :=
  [mk_row 1 (hm 8 50) (hm 10 30);
   mk_row 2 (hm 10 35) (hm 12 15);
   mk_row 3 (hm 13 0) (hm 14 40)].

(** The canonical text [YYYY-MM-DD HH:MM:SS]: [put2 n rest] writes the two
    decimal digits of [n] in front of [rest], [put4] the four of a year. *)
Definition put2 (n : Z) (rest : string) : string :=
  String (digit_char (n / 10)) (String (digit_char (n mod 10)) rest).

Definition put4 (n : Z) (rest : string) : string :=
  put2 (n / 100) (put2 (n mod 100) rest).

Definition canonical (dt : datetime) : string :=
  put4 (dt_year dt) (String "-" (put2 (dt_month dt) (String "-" (put2 (dt_day dt)
    (String " " (put2 (dt_hour dt) (String ":" (put2 (dt_minute dt)
      (String ":" (put2 (dt_second dt) EmptyString)))))))))).

(** The text [strftime] writes with ["%Y-%m-%d %H:%M:%S"]: the digits of
    the year without padding, then the other fields as in the canonical
    text. *)
Definition year_text (n : Z) (rest : string) : string :=
  if n <? 10 then String (digit_char n) rest
  else if n <? 100 then put2 n rest
  else if n <? 1000 then String (digit_char (n / 100)) (put2 (n mod 100) rest)
  else put4 n rest.

Definition after_year (dt : datetime) : string :=
  String "-" (put2 (dt_month dt) (String "-" (put2 (dt_day dt)
    (String " " (put2 (dt_hour dt) (String ":" (put2 (dt_minute dt)
      (String ":" (put2 (dt_second dt) EmptyString))))))))).

Definition written (dt : datetime) : string :=
  year_text (dt_year dt) (after_year dt).

(** The shape [dddd-dd-dd dd:dd:dd]. *)
Fixpoint has_shape (shape s : string) : bool :=
  match shape, s with
  | EmptyString, EmptyString => true
  | String "d" shape', String c s' => is_digit c && has_shape shape' s'
  | String k shape', String c s' => Ascii.eqb k c && has_shape shape' s'
  | _, _ => false
  end.

Definition canonical_shape (s : string) : bool :=
  has_shape "dddd-dd-dd dd:dd:dd" s.

(** The values the constructor [datetime] accepts. *)
Definition valid_datetime (dt : datetime) : bool :=
  between 1 (dt_year dt) 9999 && between 1 (dt_month dt) 12
  && between 1 (dt_day dt) (days_in_month (dt_year dt) (dt_month dt))
  && between 0 (dt_hour dt) 23 && between 0 (dt_minute dt) 59
  && between 0 (dt_second dt) 59 && between 0 (dt_microsecond dt) 999999.

(** [dt.replace(microsecond=0)] *)
Definition drop_fraction (dt : datetime) : datetime :=
  mk_datetime (dt_year dt) (dt_month dt) (dt_day dt)
              (dt_hour dt) (dt_minute dt) (dt_second dt) 0.

(** The ordering of [time] values as a proposition. *)
Definition tlt (a b : time) : Prop :=
  hour a < hour b \/ (hour a = hour b /\
  (minute a < minute b \/ (minute a = minute b /\
  (second a < second b \/ (second a = second b /\
   microsecond a < microsecond b))))).

Definition tle (a b : time) : Prop :=
  hour a < hour b \/ (hour a = hour b /\
  (minute a < minute b \/ (minute a = minute b /\
  (second a < second b \/ (second a = second b /\
   microsecond a <= microsecond b))))).

(** Adding the groups matched so far to a result of [match_seq]. *)
Definition with_groups (g1 : groupdict) (x : string * groupdict) : string * groupdict :=
  let '(s2, g2) := x in (s2, (g1 ++ g2)%list).

(** The groups of the date and the hour of a canonical text. *)
Definition canonical_groups (dt : datetime) : groupdict :=
  [("Y"%char, put4 (dt_year dt) EmptyString);
   ("m"%char, put2 (dt_month dt) EmptyString);
   ("d"%char, put2 (dt_day dt) EmptyString);
   ("H"%char, put2 (dt_hour dt) EmptyString)].

(** The first interval of the list that has not ended at [t]. *)
Fixpoint first_unfinished (ttable : list rec) (t : time) : option rec :=
  match ttable with
  | [] => None
  | r :: rest => if time_lt t (end_ r) then Some r else first_unfinished rest t
  end.

(** Two intervals that overlap, the longer one first. *)
Definition timetable_overlap : list rec :=
  [mk_rec 1 (hm 8 0) (hm 12 0); mk_rec 2 (hm 9 0) (hm 10 0)].

(** The names of the groups of a regular expression. *)
Fixpoint group_names (r : regex) : list ascii :=
  match r with
  | One _ | Many1 _ _ => []
  | Cat r1 r2 | Alt r1 r2 => (group_names r1 ++ group_names r2)%list
  | Group name r' => (group_names r' ++ [name])%list
  end.

(** A time of day as the constructor [time] accepts it, at a whole second. *)
Definition whole_second (t : time) : Prop :=
  0 <= hour t <= 23 /\ 0 <= minute t <= 59 /\ 0 <= second t <= 59
  /\ microsecond t = 0.

(** The canonical text followed by [rest], and the text without seconds
    with the separator [sep] between date and time. *)
Definition canonical_then (dt : datetime) (rest : string) : string :=
  put4 (dt_year dt) (String "-" (put2 (dt_month dt) (String "-" (put2 (dt_day dt)
    (String " " (put2 (dt_hour dt) (String ":" (put2 (dt_minute dt)
      (String ":" (put2 (dt_second dt) rest)))))))))).

Definition minute_text (sep : ascii) (dt : datetime) : string :=
  put4 (dt_year dt) (String "-" (put2 (dt_month dt) (String "-" (put2 (dt_day dt)
    (String sep (put2 (dt_hour dt) (String ":" (put2 (dt_minute dt) EmptyString)))))))).

(** [dt.replace(second=0, microsecond=0)] *)
Definition drop_seconds (dt : datetime) : datetime :=
  mk_datetime (dt_year dt) (dt_month dt) (dt_day dt) (dt_hour dt) (dt_minute dt) 0 0.

(** A text of decimal digits. *)
Fixpoint all_digits (s : string) : bool :=
  match s with
  | EmptyString => true
  | String c s' => is_digit c && all_digits s'
  end.

(** ** The master tables read by the helpers *)

(** A row of the table 授業科目 (columns 授業科目ID, 授業科目名, 学科ID, 単位,
    学科フラグ, 備考); 授業科目ID is its primary key. *)
Record subject : Type := mk_subject
  { subject_id : Z; subject_name : string; subject_gakka : Z;
    subject_units : Z; subject_flag : Z; subject_note : option string }.

(** [MAX(授業科目ID)]: SQL's [NULL] on the empty table. *)
Fixpoint max_subject_id (subjects : list subject) : option Z :=
  match subjects with
  | [] => None
  | s :: rest =>
      match max_subject_id rest with
      | None => Some (subject_id s)
      | Some m => Some (Z.max (subject_id s) m)
      end
  end.

(** [_next_subject_id] (lines 82-85):
    [SELECT COALESCE(MAX(授業科目ID), 0) + 1 FROM 授業科目], on the rows of
    the table. *)
Definition _next_subject_id (subjects : list subject) : Z :=
  match max_subject_id subjects with
  | Some m => m + 1
  | None => 0 + 1
  end.

(** A row of the table 生徒 (columns 学科ID, 学生番号, 生徒名, 備考); the pair
    (学科ID, 学生番号) is its primary key. *)
Record student : Type := mk_student
  { student_gakka : Z; student_number : Z; student_name : string;
    student_note : option string }.

(** [get_official_student] (lines 65-71):
    [SELECT 生徒名 FROM 生徒 WHERE 学生番号 = %s AND 学科ID = %s], then
    [fetchone] and [row[0] if row else None]; the rows come in the order of
    the table. *)
Definition get_official_student (students : list student) (number gakka : Z)
  : option string :=
  match List.filter (fun r => (student_number r =? number) && (student_gakka r =? gakka))
               students with
  | row :: _ => Some (student_name row)
  | [] => None
  end.

(** The primary key of 生徒: no two rows with the same (学科ID, 学生番号). *)
Definition same_student_key (a b : student) : bool :=
  (student_gakka a =? student_gakka b) && (student_number a =? student_number b).

Fixpoint unique_student_keys (students : list student) : bool :=
  match students with
  | [] => true
  | r :: rest => negb (existsb (same_student_key r) rest) && unique_student_keys rest
  end.

(** [get_subject_name_by_id] (lines 109-114):
    [SELECT 授業科目名 FROM 授業科目 WHERE 授業科目ID = %s], then [fetchone]
    and [row[0] if row else '未設定'] (the text is kept as its UTF-8 bytes). *)
Definition get_subject_name_by_id (subjects : list subject) (id : Z) : string :=
  match List.filter (fun s => subject_id s =? id) subjects with
  | row :: _ => subject_name row
  | [] => "未設定"
  end.

(** The primary key of 授業科目: no two rows with the same 授業科目ID. *)
Fixpoint unique_subject_ids (subjects : list subject) : bool :=
  match subjects with
  | [] => true
  | s :: rest =>
      negb (existsb (fun x => subject_id s =? subject_id x) rest)
      && unique_subject_ids rest
  end.

(** Some rows of the seed data of [init_db_command], with names in Latin
    letters. *)
Definition some_students : list student :=
  [mk_student 1 1 "Aoi" None; mk_student 1 2 "Akasaka" None;
   mk_student 3 1 "Aoi" None; mk_student 3 2 "Akasaka" None].

Definition some_subjects : list subject :=
  [mk_subject 301 "Technical English" 3 2 0 None;
   mk_subject 302 "Production management" 3 2 0 None;
   mk_subject 390 "Development project" 3 54 0 None].

(** The texts [%H] reads before a colon and [%M] reads at the end of the
    text, by the classes of their characters. *)
Definition hour_text (a : string) : bool :=
  match a with
  | String c EmptyString => cls_test AnyDigit c
  | String c1 (String c2 EmptyString) =>
      (cls_test (Lit "2") c1 && cls_test (Range "0" "3") c2)
      || (cls_test (Range "0" "1") c1 && cls_test AnyDigit c2)
  | _ => false
  end.

Definition minute_end_text (b : string) : bool :=
  match b with
  | String c EmptyString => cls_test AnyDigit c
  | String c1 (String c2 EmptyString) =>
      cls_test (Range "0" "5") c1 && cls_test AnyDigit c2
  | _ => false
  end.

(** A text without a colon. *)
Fixpoint no_colon (s : string) : bool :=
  match s with
  | EmptyString => true
  | String c s' => negb (cls_test (Lit ":") c) && no_colon s'
  end.

(** * Properties *)

(** ** The ordering of [time] values *)

Ltac cmp_cases :=
  unfold time_lt, time_le, time_ge, time_cmp, lex, tlt, tle;
  repeat match goal with
         | |- context [?x ?= ?y] => destruct (Z.compare_spec x y)
         end;
  intuition (try discriminate; try lia).

Lemma time_lt_spec a b : time_lt a b = true <-> tlt a b.
Proof. cmp_cases. Qed.

Lemma time_le_spec a b : time_le a b = true <-> tle a b.
Proof. cmp_cases. Qed.

Lemma time_ge_spec a b : time_ge a b = true <-> tle b a.
Proof. cmp_cases. Qed.

Lemma time_lt_false a b : time_lt a b = false <-> tle b a.
Proof. cmp_cases. Qed.

Lemma time_le_false a b : time_le a b = false <-> tlt b a.
Proof. cmp_cases. Qed.

Lemma time_ge_false a b : time_ge a b = false <-> tlt a b.
Proof. cmp_cases. Qed.

(** Turns every comparison of the context into linear arithmetic. *)
Ltac time_order :=
  repeat match goal with
         | H : time_lt _ _ = true |- _ => apply time_lt_spec in H
         | H : time_le _ _ = true |- _ => apply time_le_spec in H
         | H : time_ge _ _ = true |- _ => apply time_ge_spec in H
         | H : time_lt _ _ = false |- _ => apply time_lt_false in H
         | H : time_le _ _ = false |- _ => apply time_le_false in H
         | H : time_ge _ _ = false |- _ => apply time_ge_false in H
         end;
  try match goal with
      | |- time_lt _ _ = true => apply time_lt_spec
      | |- time_le _ _ = true => apply time_le_spec
      | |- time_ge _ _ = true => apply time_ge_spec
      | |- time_lt _ _ = false => apply time_lt_false
      | |- time_le _ _ = false => apply time_le_false
      | |- time_ge _ _ = false => apply time_ge_false
      end;
  unfold tlt, tle in *; lia.

Lemma contains_true r t :
  contains r t = true <-> tle (start r) t /\ tlt t (end_ r).
Proof.
  unfold contains. rewrite andb_true_iff, time_le_spec, time_lt_spec. tauto.
Qed.

Lemma contains_false r t :
  contains r t = false <-> tlt t (start r) \/ tle (end_ r) t.
Proof.
  unfold contains. rewrite andb_false_iff, time_le_false, time_lt_false. tauto.
Qed.

(** ** Facts about ordered timetables *)

Section Timetable.

Implicit Types (ttable : list rec) (t : time) (r a b : rec) (i j : nat).

Lemma ordered_cons a ttable : ordered (a :: ttable) = true -> ordered ttable = true.
Proof. simpl. intros H. apply andb_true_iff in H. tauto. Qed.

Lemma ordered_lookup ttable i r :
  ordered ttable = true -> ttable !! i = Some r -> tlt (start r) (end_ r).
Proof.
  revert i. induction ttable as [|a rest IH]; intros i Hord Hi.
  - discriminate.
  - destruct i as [|i]; simpl in Hi.
    + injection Hi as ->. simpl in Hord.
      apply andb_true_iff in Hord as [Hord _].
      apply andb_true_iff in Hord as [Hord _].
      now apply time_lt_spec.
    + eapply IH; eauto using ordered_cons.
Qed.

(** The head interval ends before any later interval starts. *)
Lemma ordered_head ttable a j b :
  ordered (a :: ttable) = true -> ttable !! j = Some b -> tle (end_ a) (start b).
Proof.
  revert a j. induction ttable as [|c rest IH]; intros a j Hord Hj.
  - discriminate.
  - assert (Hac : tle (end_ a) (start c)).
    { simpl in Hord. apply andb_true_iff in Hord as [Hord _].
      apply andb_true_iff in Hord as [_ Hord]. now apply time_le_spec. }
    destruct j as [|j]; simpl in Hj.
    + now injection Hj as ->.
    + pose proof (ordered_cons _ _ Hord) as Hrest.
      pose proof (IH c j Hrest Hj) as Hcb.
      pose proof (ordered_lookup (c :: rest) 0 c Hrest eq_refl) as Hc.
      time_order.
Qed.

Lemma ordered_lookup_lt ttable i j a b :
  ordered ttable = true -> (i < j)%nat ->
  ttable !! i = Some a -> ttable !! j = Some b -> tle (end_ a) (start b).
Proof.
  revert i j. induction ttable as [|c rest IH]; intros i j Hord Hij Hi Hj.
  - discriminate.
  - destruct j as [|j]; [lia|]. simpl in Hj.
    destruct i as [|i]; simpl in Hi.
    + injection Hi as ->. eapply ordered_head; eauto.
    + eapply (IH i j); eauto using ordered_cons. lia.
Qed.

Lemma well_formed_ordered ttable : well_formed ttable = true -> ordered ttable = true.
Proof. destruct ttable; [discriminate | trivial]. Qed.

(** *** The first loop *)

Lemma scan_containing_first ttable t i r :
  ttable !! i = Some r -> contains r t = true ->
  (forall j r', (j < i)%nat -> ttable !! j = Some r' -> contains r' t = false) ->
  scan_containing ttable t = Some r.
Proof.
  revert i. induction ttable as [|c rest IH]; intros i Hi Hr Hbefore.
  - discriminate.
  - destruct i as [|i]; simpl in Hi |- *.
    + injection Hi as ->. now rewrite Hr.
    + rewrite (Hbefore 0%nat c); [|lia|reflexivity].
      apply (IH i); trivial.
      intros j r' Hj Hr'. apply (Hbefore (S j)); [lia | exact Hr'].
Qed.

Lemma scan_containing_none ttable t :
  (forall j r', ttable !! j = Some r' -> contains r' t = false) ->
  scan_containing ttable t = None.
Proof.
  induction ttable as [|c rest IH]; intros Hall; [reflexivity|].
  simpl. rewrite (Hall 0%nat c eq_refl).
  apply IH. intros j r' Hj. now apply (Hall (S j)).
Qed.

Lemma scan_containing_elem ttable t r :
  scan_containing ttable t = Some r -> r ∈ ttable.
Proof.
  induction ttable as [|c rest IH]; [discriminate|].
  simpl. destruct (contains c t).
  - intros [= ->]. apply list_elem_of_here.
  - intros H. apply list_elem_of_further. auto.
Qed.

(** *** The loop over the gaps *)

Lemma scan_gaps_first ttable t n : forall k i a b,
  (k <= i < k + n)%nat ->
  ttable !! i = Some a -> ttable !! (i + 1)%nat = Some b ->
  time_le (end_ a) t && time_lt t (start b) = true ->
  (forall j a' b', (k <= j < i)%nat ->
     ttable !! j = Some a' -> ttable !! (j + 1)%nat = Some b' ->
     time_le (end_ a') t && time_lt t (start b') = false) ->
  scan_gaps ttable t (seq k n) = Return (Some b).
Proof.
  induction n as [|n IH]; intros k i a b Hrange Hi Hi1 Hgap Hbefore; [lia|].
  simpl. destruct (decide (i = k)) as [->|Hne].
  - now rewrite Hi, Hi1, Hgap.
  - assert (Hk : is_Some (ttable !! k)).
    { apply lookup_lt_is_Some. apply lookup_lt_Some in Hi. lia. }
    assert (Hk1 : is_Some (ttable !! (k + 1)%nat)).
    { apply lookup_lt_is_Some. apply lookup_lt_Some in Hi. lia. }
    destruct Hk as [a' Ha'], Hk1 as [b' Hb'].
    rewrite Ha', Hb', (Hbefore k a' b'); [|lia|trivial..].
    apply (IH (S k) i a b); trivial; [lia|].
    intros j a'' b'' Hj. apply Hbefore. lia.
Qed.

Lemma scan_gaps_total ttable t n : forall k,
  (k + n < length ttable)%nat \/ n = 0%nat ->
  exists found, scan_gaps ttable t (seq k n) = Return found
    /\ forall r, found = Some r -> r ∈ ttable.
Proof.
  induction n as [|n IH]; intros k Hlen.
  - exists None. split; [reflexivity | discriminate].
  - simpl.
    destruct (lookup_lt_is_Some_2 ttable k) as [a Ha]; [lia|].
    destruct (lookup_lt_is_Some_2 ttable (k + 1)%nat) as [b Hb]; [lia|].
    rewrite Ha, Hb.
    destruct (time_le (end_ a) t && time_lt t (start b)).
    + exists (Some b). split; [reflexivity|].
      intros r [= <-]. eapply list_elem_of_lookup_2; eauto.
    + apply IH. lia.
Qed.

Lemma last_lookup_pred ttable r :
  last ttable = Some r -> ttable !! (length ttable - 1)%nat = Some r.
Proof. rewrite last_lookup. now replace (pred (length ttable)) with (length ttable - 1)%nat by lia. Qed.

End Timetable.

(** ** Period resolution *)

Section Resolution.

Implicit Types (ttable : list rec) (t : time) (r a b : rec) (i j : nat).

(** Along an ordered timetable starts and ends grow with the index. *)
Lemma ordered_lookup_le ttable i j a b :
  ordered ttable = true -> (i <= j)%nat ->
  ttable !! i = Some a -> ttable !! j = Some b ->
  tle (start a) (start b) /\ tle (end_ a) (end_ b).
Proof.
  intros Hord Hij Hi Hj.
  destruct (decide (i = j)) as [->|Hne].
  - rewrite Hi in Hj. injection Hj as ->. unfold tle. lia.
  - pose proof (ordered_lookup_lt ttable i j a b Hord ltac:(lia) Hi Hj).
    pose proof (ordered_lookup ttable i a Hord Hi).
    pose proof (ordered_lookup ttable j b Hord Hj).
    split; time_order.
Qed.

(** Step 1 decides whenever some interval contains [t]. *)
Lemma resolve_period_contains ttable ts_dt i r :
  ordered ttable = true -> ttable !! i = Some r ->
  contains r (dt_time ts_dt) = true ->
  resolve_period ttable ts_dt = Return (Some r).
Proof.
  intros Hord Hi Hr. unfold resolve_period.
  destruct ttable as [|c rest]; [discriminate|].
  rewrite (scan_containing_first _ _ i r Hi Hr); [reflexivity|].
  intros j r' Hj Hr'. apply contains_false. right.
  pose proof (ordered_lookup_lt _ j i r' r Hord Hj Hr' Hi).
  apply contains_true in Hr as [Hr _]. time_order.
Qed.

(** Step 4 decides for a time between the end of interval [i] and the start
    of interval [i+1], the end itself included. *)
Lemma resolve_period_between ttable ts_dt i a b :
  ordered ttable = true ->
  ttable !! i = Some a -> ttable !! S i = Some b ->
  tle (end_ a) (dt_time ts_dt) -> tlt (dt_time ts_dt) (start b) ->
  resolve_period ttable ts_dt = Return (Some b).
Proof.
  intros Hord Hi Hi1 Hlo Hhi. unfold resolve_period.
  set (t := dt_time ts_dt) in *.
  destruct ttable as [|c rest] eqn:Ett; [discriminate|]. rewrite <- Ett in *.
  assert (Hlen : (S i < length ttable)%nat) by (eapply lookup_lt_Some; eauto).
  rewrite scan_containing_none.
  2:{ intros j r' Hj. apply contains_false.
      destruct (le_lt_dec j i) as [Hle|Hgt].
      - right. pose proof (ordered_lookup_le _ j i r' a Hord Hle Hj Hi) as [_ ?].
        time_order.
      - left. pose proof (ordered_lookup_le _ (S i) j b r' Hord Hgt Hi1 Hj) as [? _].
        time_order. }
  destruct (lookup_lt_is_Some_2 ttable 0%nat) as [first_rec Hfirst]; [lia|].
  destruct (last ttable) as [last_rec|] eqn:Hlast.
  2:{ apply last_None in Hlast. rewrite Hlast in Hlen. simpl in Hlen. lia. }
  rewrite Hfirst.
  apply last_lookup_pred in Hlast.
  pose proof (ordered_lookup _ _ _ Hord Hi) as Ha.
  pose proof (ordered_lookup _ _ _ Hord Hi1) as Hb.
  pose proof (ordered_lookup_le _ 0%nat i first_rec a Hord ltac:(lia) Hfirst Hi) as [Hfa _].
  pose proof (ordered_lookup_le _ (S i) (length ttable - 1)%nat b last_rec Hord
                ltac:(lia) Hi1 Hlast) as [_ Hbl].
  replace (time_lt t (start first_rec)) with false
    by (symmetry; clear -Hfa Ha Hlo; time_order).
  replace (time_ge t (end_ last_rec)) with false
    by (symmetry; clear -Hhi Hb Hbl; time_order).
  rewrite (scan_gaps_first ttable t _ 0%nat i a b); trivial.
  - lia.
  - now replace (i + 1)%nat with (S i) by lia.
  - apply andb_true_iff. split; time_order.
  - intros j a' b' Hj Ha' Hb'. apply andb_false_iff. right.
    pose proof (ordered_lookup_le _ (j + 1)%nat i b' a Hord ltac:(lia) Hb' Hi)
      as [Hba _].
    clear -Hba Ha Hlo. time_order.
Qed.

(** The outcome on a non-empty timetable is always one of its intervals. *)
Lemma resolve_period_some ttable ts_dt :
  ttable <> [] ->
  exists r, r ∈ ttable /\ resolve_period ttable ts_dt = Return (Some r).
Proof.
  intros Hne. unfold resolve_period.
  set (t := dt_time ts_dt).
  destruct ttable as [|c rest] eqn:Ett; [congruence|]. rewrite <- Ett.
  assert (Hlen : (0 < length ttable)%nat) by (rewrite Ett; simpl; lia).
  destruct (scan_containing ttable t) as [r|] eqn:Hscan.
  { exists r. split; [eapply scan_containing_elem; eauto | reflexivity]. }
  destruct (lookup_lt_is_Some_2 ttable 0%nat) as [first_rec Hfirst]; [lia|].
  destruct (last ttable) as [last_rec|] eqn:Hlast.
  2:{ apply last_None in Hlast. congruence. }
  rewrite Hfirst.
  assert (Hf : first_rec ∈ ttable) by (eapply list_elem_of_lookup_2; eauto).
  assert (Hl : last_rec ∈ ttable).
  { apply last_lookup_pred in Hlast. eapply list_elem_of_lookup_2; eauto. }
  destruct (time_lt t (start first_rec)); [eauto|].
  destruct (time_ge t (end_ last_rec)); [eauto|].
  destruct (scan_gaps_total ttable t (length ttable - 1) 0%nat) as (found & -> & Hfound);
    [lia|]. simpl.
  destruct found as [r|]; eauto.
Qed.

End Resolution.

(** ** The claims on period resolution *)

(** C1: on a well-formed timetable, a timestamp whose time of day lies in
    the half-open interval [start, end) of interval [i] resolves to
    interval [i]. *)
Theorem resolve_period_containing ttable ts_dt i r :
  well_formed ttable = true ->
  ttable !! i = Some r ->
  time_le (start r) (dt_time ts_dt) = true ->
  time_lt (dt_time ts_dt) (end_ r) = true ->
  resolve_period ttable ts_dt = Return (Some r).
Proof.
  intros Hwf Hi Hlo Hhi.
  apply (resolve_period_contains ttable ts_dt i r); trivial.
  - now apply well_formed_ordered.
  - unfold contains. now rewrite Hlo, Hhi.
Qed.

Lemma resolve_period_containing_witness :
  resolve_period timetable_gaps (at_time 11 0) = Return (Some period2).
Proof.
  apply (resolve_period_containing timetable_gaps (at_time 11 0) 1%nat period2);
    reflexivity.
Defined.

(** C2: on a well-formed timetable, a timestamp whose time of day is the end
    of interval [i] resolves to interval [i+1] when that interval exists,
    whether it starts at that very time or after a gap. *)
Theorem resolve_period_end_boundary ttable ts_dt i a b :
  well_formed ttable = true ->
  ttable !! i = Some a -> ttable !! S i = Some b ->
  dt_time ts_dt = end_ a ->
  resolve_period ttable ts_dt = Return (Some b).
Proof.
  intros Hwf Hi Hi1 Ht. apply well_formed_ordered in Hwf.
  pose proof (ordered_lookup_lt _ i (S i) a b Hwf ltac:(lia) Hi Hi1) as Hab.
  pose proof (ordered_lookup _ _ _ Hwf Hi1) as Hb.
  destruct (time_le (start b) (dt_time ts_dt)) eqn:Hstart.
  - apply (resolve_period_contains ttable ts_dt (S i) b); trivial.
    apply contains_true. rewrite Ht in *. split; time_order.
  - apply (resolve_period_between ttable ts_dt i a b); trivial;
      rewrite Ht in *; time_order.
Qed.

Lemma resolve_period_end_boundary_witness :
  resolve_period timetable_adjacent (at_time 10 30) = Return (Some period2')
  /\ resolve_period timetable_gaps (at_time 10 30) = Return (Some period2).
Proof.
  split.
  - apply (resolve_period_end_boundary timetable_adjacent (at_time 10 30)
             0%nat period1 period2'); reflexivity.
  - apply (resolve_period_end_boundary timetable_gaps (at_time 10 30)
             0%nat period1 period2); reflexivity.
Defined.

(** C3: on a well-formed timetable, a time of day strictly between the end
    of interval [i] and the start of interval [i+1] resolves to interval
    [i+1]. *)
Theorem resolve_period_gap ttable ts_dt i a b :
  well_formed ttable = true ->
  ttable !! i = Some a -> ttable !! S i = Some b ->
  time_lt (end_ a) (dt_time ts_dt) = true ->
  time_lt (dt_time ts_dt) (start b) = true ->
  resolve_period ttable ts_dt = Return (Some b).
Proof.
  intros Hwf Hi Hi1 Hlo Hhi. apply well_formed_ordered in Hwf.
  apply (resolve_period_between ttable ts_dt i a b); trivial; time_order.
Qed.

Lemma resolve_period_gap_witness :
  resolve_period timetable_gaps (at_time 10 32) = Return (Some period2).
Proof.
  apply (resolve_period_gap timetable_gaps (at_time 10 32) 0%nat period1 period2);
    reflexivity.
Defined.

(** C4: on a well-formed timetable, a time of day strictly before the start
    of the first interval resolves to the first interval. *)
Theorem resolve_period_before_first ttable ts_dt first_rec :
  well_formed ttable = true ->
  ttable !! 0%nat = Some first_rec ->
  time_lt (dt_time ts_dt) (start first_rec) = true ->
  resolve_period ttable ts_dt = Return (Some first_rec).
Proof.
  intros Hwf Hfirst Ht. apply well_formed_ordered in Hwf.
  unfold resolve_period.
  destruct ttable as [|c rest] eqn:Ett; [discriminate|]. rewrite <- Ett in *.
  rewrite scan_containing_none.
  2:{ intros j r' Hj. apply contains_false. left.
      pose proof (ordered_lookup_le _ 0%nat j first_rec r' Hwf ltac:(lia) Hfirst Hj)
        as [? _].
      time_order. }
  rewrite Hfirst.
  destruct (last ttable) as [last_rec|] eqn:Hlast.
  - now rewrite Ht.
  - apply last_None in Hlast. congruence.
Qed.

Lemma resolve_period_before_first_witness :
  resolve_period timetable_gaps (at_time 8 0) = Return (Some period1).
Proof.
  apply (resolve_period_before_first timetable_gaps (at_time 8 0) period1);
    reflexivity.
Defined.

(** C5: on a well-formed timetable, a time of day at or after the end of the
    last interval resolves to the last interval. *)
Theorem resolve_period_after_last ttable ts_dt last_rec :
  well_formed ttable = true ->
  last ttable = Some last_rec ->
  time_ge (dt_time ts_dt) (end_ last_rec) = true ->
  resolve_period ttable ts_dt = Return (Some last_rec).
Proof.
  intros Hwf Hlast Ht. apply well_formed_ordered in Hwf.
  unfold resolve_period.
  destruct ttable as [|c rest] eqn:Ett; [discriminate|]. rewrite <- Ett in *.
  assert (Hlen : (0 < length ttable)%nat) by (rewrite Ett; simpl; lia).
  pose proof (last_lookup_pred _ _ Hlast) as Hl.
  rewrite scan_containing_none.
  2:{ intros j r' Hj. apply contains_false. right.
      pose proof (lookup_lt_Some _ _ _ Hj).
      pose proof (ordered_lookup_le _ j (length ttable - 1)%nat r' last_rec Hwf
                    ltac:(lia) Hj Hl) as [_ ?].
      time_order. }
  destruct (lookup_lt_is_Some_2 ttable 0%nat) as [first_rec Hfirst]; [lia|].
  rewrite Hfirst, Hlast.
  pose proof (ordered_lookup _ _ _ Hwf Hfirst).
  pose proof (ordered_lookup_le _ 0%nat (length ttable - 1)%nat first_rec last_rec Hwf
                ltac:(lia) Hfirst Hl) as [_ ?].
  replace (time_lt (dt_time ts_dt) (start first_rec)) with false
    by (symmetry; time_order).
  now rewrite Ht.
Qed.

Lemma resolve_period_after_last_witness :
  resolve_period timetable_gaps (at_time 15 0) = Return (Some period3)
  /\ resolve_period timetable_gaps (at_time 14 40) = Return (Some period3).
Proof.
  split.
  - apply (resolve_period_after_last timetable_gaps (at_time 15 0) period3);
      reflexivity.
  - apply (resolve_period_after_last timetable_gaps (at_time 14 40) period3);
      reflexivity.
Defined.

(** C6: the outcome is [None] exactly when the timetable is empty.  On the
    empty timetable the call returns [None] without raising; on any other
    timetable, well-formed or not, it returns one of the timetable's
    intervals, and never raises. *)
Theorem resolve_period_none_iff_empty ttable ts_dt :
  (ttable = [] -> resolve_period ttable ts_dt = Return None)
  /\ (ttable <> [] ->
      exists r, r ∈ ttable /\ resolve_period ttable ts_dt = Return (Some r))
  /\ (resolve_period ttable ts_dt = Return None <-> ttable = []).
Proof.
  assert (Hempty : ttable = [] -> resolve_period ttable ts_dt = Return None)
    by now intros ->.
  repeat split; trivial.
  - now apply resolve_period_some.
  - intros Hnone. destruct ttable as [|c rest]; [reflexivity|].
    destruct (resolve_period_some (c :: rest) ts_dt) as (r & _ & Hr); [discriminate|].
    congruence.
Qed.

Lemma resolve_period_none_iff_empty_witness :
  resolve_period [] (at_time 9 0) = Return None
  /\ exists r, r ∈ timetable_gaps
       /\ resolve_period timetable_gaps (at_time 9 0) = Return (Some r).
Proof.
  split.
  - apply (resolve_period_none_iff_empty [] (at_time 9 0)). reflexivity.
  - apply (resolve_period_none_iff_empty timetable_gaps (at_time 9 0)). discriminate.
Defined.

(** ** Enumeration of a bounded integer *)

Lemma Z_below (P : Z -> Prop) (n : nat) :
  (forall k : nat, (k < n)%nat -> P (Z.of_nat k)) ->
  forall z, 0 <= z < Z.of_nat n -> P z.
Proof. intros H z Hz. rewrite <- (Z2Nat.id z) by lia. apply H. lia. Qed.

(** Proves a goal about [z], known to lie below [n], value by value. *)
Tactic Notation "enum_below" constr(z) constr(n) "by" tactic3(tac) :=
  let k := fresh "k" in
  let Hk := fresh "Hk" in
  pattern z; apply (Z_below _ n); [intros k Hk | lia];
  repeat (destruct k as [|k];
          [first [solve [tac] | intros; lia]
          | apply (proj2 (Nat.succ_lt_mono _ _)) in Hk]);
  exfalso; exact (Nat.nlt_0_r _ Hk).

(** ** Decimal digits *)

Lemma is_digit_digit_char x : 0 <= x <= 9 -> is_digit (digit_char x) = true.
Proof. intros Hx. enum_below x 10%nat by reflexivity. Qed.

Lemma digit_char_not_sign x :
  0 <= x <= 9 ->
  Ascii.eqb (digit_char x) "+" || Ascii.eqb (digit_char x) "-" = false.
Proof. intros Hx. enum_below x 10%nat by reflexivity. Qed.

Lemma digits_value_digit_char x acc rest :
  0 <= x <= 9 ->
  digits_value acc (String (digit_char x) rest) = digits_value (10 * acc + x) rest.
Proof. intros Hx. enum_below x 10%nat by reflexivity. Qed.

Lemma put2_str n : 0 <= n <= 99 -> zfill 2 (str_of_int n) = put2 n EmptyString.
Proof. intros Hn. enum_below n 100%nat by reflexivity. Qed.

Lemma int_put2 n : 0 <= n <= 99 -> int (put2 n EmptyString) = Return n.
Proof. intros Hn. enum_below n 100%nat by reflexivity. Qed.

Lemma put2_app n rest : put2 n EmptyString +:+ rest = put2 n rest.
Proof. reflexivity. Qed.

Lemma put4_app n rest : put4 n EmptyString +:+ rest = put4 n rest.
Proof. reflexivity. Qed.

Ltac div_lia := Z.to_euclidean_division_equations; lia.

(** The decimal digits of a number below 10000, by its size. *)
Lemma decimal_digits_1 fuel n acc :
  0 <= n < 10 ->
  decimal_digits (S fuel) n acc = String (digit_char n) acc.
Proof.
  intros Hn. cbn [decimal_digits].
  replace (n / 10) with 0 by div_lia. replace (n mod 10) with n by div_lia.
  reflexivity.
Qed.

Lemma decimal_digits_more fuel n acc :
  10 <= n ->
  decimal_digits (S fuel) n acc
  = decimal_digits fuel (n / 10) (String (digit_char (n mod 10)) acc).
Proof.
  intros Hn. cbn [decimal_digits].
  destruct (Z.eqb_spec (n / 10) 0) as [E|_]; [exfalso; div_lia | reflexivity].
Qed.

Lemma fuel_enough n :
  10 <= n -> exists fuel, S (Z.to_nat (Z.log2 n)) = S (S (S (S fuel))).
Proof.
  intros Hn. pose proof (Z.log2_le_mono 8 n ltac:(lia)) as H.
  change (Z.log2 8) with 3 in H.
  exists (Z.to_nat (Z.log2 n) - 3)%nat. lia.
Qed.

(** Equality of two texts of digits, digit by digit. *)
Ltac digits_eq :=
  repeat match goal with
         | |- String _ _ = String _ _ => apply f_equal2
         | |- digit_char _ = digit_char _ => apply f_equal
         end;
  try reflexivity; div_lia.

(** [str] of a year: its digits, without padding. *)
Lemma str_of_int_year n : 1 <= n <= 9999 -> str_of_int n = year_text n EmptyString.
Proof.
  intros Hn. unfold str_of_int, year_text, put4, put2.
  destruct (Z.ltb_spec n 0) as [?|_]; [lia|].
  destruct (Z.ltb_spec n 10) as [H1|H1].
  { now rewrite decimal_digits_1 by lia. }
  destruct (fuel_enough n H1) as [fuel ->].
  rewrite decimal_digits_more by lia.
  destruct (Z.ltb_spec n 100) as [H2|H2].
  { rewrite decimal_digits_1 by div_lia. reflexivity. }
  rewrite decimal_digits_more by div_lia.
  destruct (Z.ltb_spec n 1000) as [H3|H3].
  { rewrite decimal_digits_1 by div_lia. digits_eq. }
  rewrite decimal_digits_more by div_lia.
  rewrite decimal_digits_1 by div_lia.
  digits_eq.
Qed.

Lemma year_text_app n rest : year_text n EmptyString +:+ rest = year_text n rest.
Proof.
  unfold year_text.
  destruct (n <? 10); [reflexivity|].
  destruct (n <? 100); [reflexivity|].
  destruct (n <? 1000); reflexivity.
Qed.

Lemma put4_chars n rest :
  0 <= n <= 9999 ->
  exists c1 c2 c3 c4,
    put4 n rest = String c1 (String c2 (String c3 (String c4 rest)))
    /\ is_digit c1 = true /\ is_digit c2 = true
    /\ is_digit c3 = true /\ is_digit c4 = true.
Proof.
  intros Hn. unfold put4, put2. do 4 eexists. split; [reflexivity|].
  repeat split; apply is_digit_digit_char; Z.to_euclidean_division_equations; lia.
Qed.

(** [strip] keeps a text of digits. *)
Lemma rstrip_keep c s :
  rstrip s = s -> s <> EmptyString -> rstrip (String c s) = String c s.
Proof.
  intros H Hne. cbn [rstrip]. rewrite H. destruct s; [congruence | reflexivity].
Qed.

Lemma rstrip_put2 n rest :
  rstrip rest = rest -> rest <> EmptyString -> rstrip (put2 n rest) = put2 n rest.
Proof.
  intros H Hne. unfold put2. apply rstrip_keep; [|discriminate].
  now apply rstrip_keep.
Qed.

Lemma rstrip_put2_last n : 0 <= n <= 99 -> rstrip (put2 n EmptyString) = put2 n EmptyString.
Proof. intros Hn. enum_below n 100%nat by reflexivity. Qed.

Lemma lstrip_put2 n rest : 0 <= n <= 99 -> lstrip (put2 n rest) = put2 n rest.
Proof. intros Hn. enum_below n 100%nat by reflexivity. Qed.

Lemma strip_put4 n :
  0 <= n <= 9999 -> strip (put4 n EmptyString) = put4 n EmptyString.
Proof.
  intros Hn. unfold strip, put4.
  rewrite lstrip_put2 by div_lia.
  apply rstrip_put2; [|unfold put2; discriminate].
  apply rstrip_put2_last. div_lia.
Qed.

Lemma int_put4 n : 0 <= n <= 9999 -> int (put4 n EmptyString) = Return n.
Proof.
  intros Hn. unfold int. rewrite strip_put4 by lia.
  unfold put4, put2.
  rewrite !digits_value_digit_char by div_lia.
  cbn [digits_value].
  f_equal. div_lia.
Qed.

(** ** Matching a sequence of items *)

Lemma match_seq_cons r rs s :
  match_seq (r :: rs) s =
  flat_map (fun '(_, s1, g1) => map (with_groups g1) (match_seq rs s1)) (rmatch r s).
Proof. reflexivity. Qed.

Lemma with_groups_nil l : map (with_groups []) l = l.
Proof.
  induction l as [|[s g] l IH]; [reflexivity|].
  cbn [map with_groups app]. now rewrite IH.
Qed.

Lemma with_groups_app g1 g2 l :
  map (with_groups (g1 ++ g2)%list) l = map (with_groups g1) (map (with_groups g2) l).
Proof.
  induction l as [|[s g] l IH]; [reflexivity|].
  cbn [map with_groups]. now rewrite IH, app_assoc.
Qed.

Lemma flat_map_with_groups g1 rs l :
  flat_map (fun '(s1, g) => map (with_groups g) (match_seq rs s1))
           (map (with_groups g1) l)
  = map (with_groups g1)
        (flat_map (fun '(s1, g) => map (with_groups g) (match_seq rs s1)) l).
Proof.
  induction l as [|[s g] l IH]; simpl; [reflexivity|].
  now rewrite IH, map_app, with_groups_app.
Qed.

(** Matching [rs1 ++ rs2] is matching [rs1] and then [rs2] on each rest. *)
Lemma match_seq_app rs1 rs2 : forall s,
  match_seq (rs1 ++ rs2) s =
  flat_map (fun '(s1, g1) => map (with_groups g1) (match_seq rs2 s1))
           (match_seq rs1 s).
Proof.
  induction rs1 as [|r rs1 IH]; intros s.
  - simpl. now rewrite app_nil_r, with_groups_nil.
  - change ((r :: rs1) ++ rs2)%list with (r :: (rs1 ++ rs2))%list.
    rewrite !match_seq_cons.
    induction (rmatch r s) as [|[[m s1] g1] l IHl]; simpl; [reflexivity|].
    rewrite IHl, IH, flat_map_app, flat_map_with_groups. reflexivity.
Qed.

(** When [rs1] matches in one way only, the search goes on from there. *)
Lemma match_seq_step rs1 rs2 s s1 g1 :
  match_seq rs1 s = [(s1, g1)] ->
  match_seq (rs1 ++ rs2) s = map (with_groups g1) (match_seq rs2 s1).
Proof. intros H. rewrite match_seq_app, H. simpl. apply app_nil_r. Qed.

(** ** The directives on canonical text *)

Lemma match_year c1 c2 c3 c4 tail :
  is_digit c1 = true -> is_digit c2 = true ->
  is_digit c3 = true -> is_digit c4 = true ->
  match_seq [re_Y; chr "-"]
    (String c1 (String c2 (String c3 (String c4 (String "-" tail)))))
  = [(tail, [("Y"%char, String c1 (String c2 (String c3 (String c4 EmptyString))))])].
Proof.
  intros H1 H2 H3 H4.
  cbn -[is_digit]. rewrite H1. cbn -[is_digit]. rewrite H2.
  cbn -[is_digit]. rewrite H3. cbn -[is_digit]. rewrite H4. reflexivity.
Qed.

Lemma match_put4 y tail :
  0 <= y <= 9999 ->
  match_seq [re_Y; chr "-"] (put4 y (String "-" tail))
  = [(tail, [("Y"%char, put4 y EmptyString)])].
Proof.
  intros Hy.
  destruct (put4_chars y EmptyString Hy) as (c1 & c2 & c3 & c4 & E & H1 & H2 & H3 & H4).
  rewrite E.
  replace (put4 y (String "-" tail))
    with (String c1 (String c2 (String c3 (String c4 (String "-" tail))))).
  - now apply match_year.
  - unfold put4, put2 in *. injection E as <- <- <- <-. reflexivity.
Qed.

Lemma match_month m tail :
  1 <= m <= 12 ->
  match_seq [re_m; chr "-"] (put2 m (String "-" tail))
  = [(tail, [("m"%char, put2 m EmptyString)])].
Proof. intros Hm. generalize Hm. enum_below m 13%nat by reflexivity. Qed.

Lemma match_hour h tail :
  0 <= h <= 23 ->
  match_seq [re_H; chr ":"] (put2 h (String ":" tail))
  = [(tail, [("H"%char, put2 h EmptyString)])].
Proof. intros Hh. enum_below h 24%nat by reflexivity. Qed.

Lemma match_day_hour d h tail :
  1 <= d <= 31 -> 0 <= h <= 23 ->
  match_seq [re_d; spaces; re_H; chr ":"]
    (put2 d (String " " (put2 h (String ":" tail))))
  = [(tail, [("d"%char, put2 d EmptyString); ("H"%char, put2 h EmptyString)])].
Proof.
  intros Hd Hh. generalize Hd.
  enum_below d 32%nat by (intros _; enum_below h 24%nat by reflexivity).
Qed.

Lemma match_minute mi tail :
  0 <= mi <= 59 ->
  match_seq [re_M; chr ":"] (put2 mi (String ":" tail))
  = [(tail, [("M"%char, put2 mi EmptyString)])].
Proof. intros Hm. enum_below mi 60%nat by reflexivity. Qed.

(** At the end of the text the first way [%S] matches takes both digits. *)
Lemma match_second sec :
  0 <= sec <= 59 ->
  exists more,
    match_seq [re_S] (put2 sec EmptyString)
    = (EmptyString, [("S"%char, put2 sec EmptyString)]) :: more.
Proof. intros Hs. enum_below sec 60%nat by (eexists; reflexivity). Qed.

(** Before [":SS"] the first way [%M] matches stops at the colon. *)
Lemma match_minute_last mi tail :
  0 <= mi <= 59 ->
  exists more,
    match_seq [re_M] (put2 mi (String ":" tail))
    = (String ":" tail, [("M"%char, put2 mi EmptyString)]) :: more.
Proof. intros Hm. enum_below mi 60%nat by (eexists; reflexivity). Qed.

(** ** The constructor and [strptime] *)

Lemma days_in_month_le year month : days_in_month year month <= 31.
Proof.
  unfold days_in_month.
  repeat match goal with |- context [if ?b then _ else _] => destruct b end; lia.
Qed.

Lemma between_spec lo x hi : between lo x hi = true <-> lo <= x <= hi.
Proof. unfold between. rewrite andb_true_iff, !Z.leb_le. tauto. Qed.

Ltac fields :=
  cbn [dt_year dt_month dt_day dt_hour dt_minute dt_second dt_microsecond negb] in *.

Lemma datetime_new_Return y mo d h mi s us dt :
  datetime_new y mo d h mi s us = Return dt <->
  dt = mk_datetime y mo d h mi s us /\ valid_datetime dt = true.
Proof.
  unfold datetime_new, valid_datetime. split.
  - repeat match goal with
           | |- context [negb (between ?a ?b ?c)] =>
               destruct (between a b c) eqn:?; fields; [|discriminate]
           end.
    intros [= <-]. fields. split; [reflexivity|].
    rewrite !andb_true_iff. repeat split; assumption.
  - intros [-> H]. fields.
    rewrite !andb_true_iff in H. destruct H as ((((((? & ?) & ?) & ?) & ?) & ?) & ?).
    repeat match goal with
           | Hb : between ?a ?b ?c = true |- _ => rewrite Hb; clear Hb
           end.
    reflexivity.
Qed.

Lemma datetime_new_raises y mo d h mi s us e :
  datetime_new y mo d h mi s us = Raise e -> e = ValueError.
Proof.
  unfold datetime_new.
  repeat match goal with
         | |- context [if ?b then _ else _] => destruct b
         end; congruence.
Qed.

Lemma int_raises s e : int s = Raise e -> e = ValueError.
Proof.
  unfold int. destruct (strip s); [congruence|].
  destruct (digits_value _ _); congruence.
Qed.

Lemma convert_group_raises acc kv e :
  convert_group acc kv = Raise e -> e = ValueError.
Proof.
  destruct kv as [key text], acc. unfold convert_group.
  repeat match goal with
         | |- context [match ?x with _ => _ end] =>
             match type of x with
             | bool => destruct x
             | ascii => destruct x
             end
         end;
    try discriminate;
    match goal with
    | |- context [int ?t] => destruct (int t) eqn:E; simpl; [discriminate|]
    end;
    intros [= <-]; eapply int_raises; eauto.
Qed.

Lemma convert_groups_raises found_dict : forall acc e,
  convert_groups acc found_dict = Raise e -> e = ValueError.
Proof.
  induction found_dict as [|kv rest IH]; intros acc e; simpl; [discriminate|].
  destruct (convert_group acc kv) eqn:E; simpl.
  - apply IH.
  - intros [= <-]. eapply convert_group_raises; eauto.
Qed.

(** [strptime] raises nothing but [ValueError]. *)
Lemma strptime_raises s f e : strptime s f = Raise e -> e = ValueError.
Proof.
  unfold strptime. destruct (pattern f); [|congruence].
  destruct (match_seq _ _) as [|[[|c rest] found_dict] more]; try congruence.
  destruct (convert_groups _ found_dict) eqn:E; simpl.
  - apply datetime_new_raises.
  - intros [= <-]. eapply convert_groups_raises; eauto.
Qed.

(** What [strptime] returns went through the constructor's checks. *)
Lemma strptime_valid s f dt : strptime s f = Return dt -> valid_datetime dt = true.
Proof.
  unfold strptime. destruct (pattern f); [|discriminate].
  destruct (match_seq _ _) as [|[[|c rest] found_dict] more]; try discriminate.
  destruct (convert_groups _ found_dict); simpl; [|discriminate].
  intros H. now apply datetime_new_Return in H.
Qed.

Lemma valid_ranges dt :
  valid_datetime dt = true ->
  1 <= dt_year dt <= 9999 /\ 1 <= dt_month dt <= 12 /\ 1 <= dt_day dt <= 31
  /\ 0 <= dt_hour dt <= 23 /\ 0 <= dt_minute dt <= 59 /\ 0 <= dt_second dt <= 59.
Proof.
  unfold valid_datetime. intros H.
  rewrite !andb_true_iff in H. destruct H as ((((((? & ?) & ?) & ?) & ?) & ?) & ?).
  repeat match goal with
         | Hb : between _ _ _ = true |- _ => apply between_spec in Hb
         end.
  pose proof (days_in_month_le (dt_year dt) (dt_month dt)). lia.
Qed.

Lemma valid_drop_fraction dt :
  valid_datetime dt = true -> valid_datetime (drop_fraction dt) = true.
Proof.
  unfold valid_datetime, drop_fraction. intros H. fields.
  rewrite !andb_true_iff in *. intuition.
Qed.

(** ** What [strftime] writes *)

Lemma strftime_written dt :
  valid_datetime dt = true ->
  strftime dt "%Y-%m-%d %H:%M:%S" = written dt.
Proof.
  intros Hv. apply valid_ranges in Hv as (Hy & Hmo & Hd & Hh & Hmi & Hs).
  cbn [strftime strftime_directive].
  rewrite str_of_int_year, !put2_str by lia.
  unfold written. rewrite <- (year_text_app _ (after_year dt)).
  reflexivity.
Qed.

(** From the year 1000 on this is the canonical text. *)
Lemma written_canonical dt : 1000 <= dt_year dt -> written dt = canonical dt.
Proof.
  intros Hy. unfold written, year_text.
  destruct (Z.ltb_spec (dt_year dt) 10); [lia|].
  destruct (Z.ltb_spec (dt_year dt) 100); [lia|].
  destruct (Z.ltb_spec (dt_year dt) 1000); [lia|].
  reflexivity.
Qed.

Lemma strftime_canonical dt :
  valid_datetime dt = true -> 1000 <= dt_year dt ->
  strftime dt "%Y-%m-%d %H:%M:%S" = canonical dt.
Proof.
  intros Hv Hy. now rewrite (strftime_written dt Hv), (written_canonical dt Hy).
Qed.

Lemma written_drop_fraction dt : written (drop_fraction dt) = written dt.
Proof. reflexivity. Qed.

Lemma canonical_drop_fraction dt : canonical (drop_fraction dt) = canonical dt.
Proof. reflexivity. Qed.

(** ** Reading the canonical text back *)

Lemma match_date_hour dt tail :
  valid_datetime dt = true ->
  match_seq ([re_Y; chr "-"] ++ [re_m; chr "-"] ++ [re_d; spaces; re_H; chr ":"])
    (put4 (dt_year dt) (String "-" (put2 (dt_month dt) (String "-"
       (put2 (dt_day dt) (String " " (put2 (dt_hour dt) (String ":" tail))))))))
  = [(tail, canonical_groups dt)].
Proof.
  intros Hv. apply valid_ranges in Hv as (Hy & Hmo & Hd & Hh & _).
  rewrite (match_seq_step _ _ _ _ _ (match_put4 (dt_year dt) _ ltac:(lia))).
  rewrite (match_seq_step _ _ _ _ _ (match_month _ _ Hmo)).
  rewrite (match_day_hour _ _ _ Hd Hh).
  reflexivity.
Qed.

Lemma convert_canonical dt :
  valid_datetime dt = true ->
  convert_groups (mk_datetime 1900 1 1 0 0 0 0)
    (canonical_groups dt ++ [("M"%char, put2 (dt_minute dt) EmptyString);
                             ("S"%char, put2 (dt_second dt) EmptyString)])%list
  = Return (drop_fraction dt).
Proof.
  intros Hv. apply valid_ranges in Hv as (Hy & Hmo & Hd & Hh & Hmi & Hs).
  unfold canonical_groups.
  cbn [app convert_groups convert_group].
  rewrite int_put4 by lia. cbn [obind convert_groups convert_group].
  repeat (rewrite int_put2 by lia; cbn [obind convert_groups convert_group]).
  reflexivity.
Qed.

(** The second format reads the canonical text back. *)
Lemma strptime_canonical dt :
  valid_datetime dt = true ->
  strptime (canonical dt) "%Y-%m-%d %H:%M:%S" = Return (drop_fraction dt).
Proof.
  intros Hv. unfold strptime.
  change (pattern "%Y-%m-%d %H:%M:%S")
    with (Some ((([re_Y; chr "-"] ++ [re_m; chr "-"] ++ [re_d; spaces; re_H; chr ":"])
                 ++ [re_M; chr ":"] ++ [re_S])%list)).
  unfold canonical.
  rewrite (match_seq_step _ _ _ _ _ (match_date_hour dt _ Hv)).
  pose proof (valid_ranges dt Hv) as (_ & _ & _ & _ & Hmi & Hs).
  rewrite (match_seq_step _ _ _ _ _ (match_minute _ _ Hmi)).
  destruct (match_second _ Hs) as [more ->].
  cbn [map with_groups].
  change ((canonical_groups dt ++ [("M"%char, put2 (dt_minute dt) "")]
           ++ [("S"%char, put2 (dt_second dt) "")])%list)
    with ((canonical_groups dt ++ [("M"%char, put2 (dt_minute dt) "");
                                   ("S"%char, put2 (dt_second dt) "")])%list).
  rewrite (convert_canonical dt Hv). cbn [obind].
  apply datetime_new_Return. split; [reflexivity|].
  now apply valid_drop_fraction.
Qed.

(** The first format stops before the seconds and raises. *)
Lemma strptime_canonical_short dt :
  valid_datetime dt = true ->
  strptime (canonical dt) "%Y-%m-%d %H:%M" = Raise ValueError.
Proof.
  intros Hv. unfold strptime.
  change (pattern "%Y-%m-%d %H:%M")
    with (Some ((([re_Y; chr "-"] ++ [re_m; chr "-"] ++ [re_d; spaces; re_H; chr ":"])
                 ++ [re_M])%list)).
  unfold canonical.
  rewrite (match_seq_step _ _ _ _ _ (match_date_hour dt _ Hv)).
  pose proof (valid_ranges dt Hv) as (_ & _ & _ & _ & Hmi & _).
  destruct (match_minute_last (dt_minute dt)
              (put2 (dt_second dt) EmptyString) Hmi) as [more ->].
  reflexivity.
Qed.

(** ** [strip] and [replace] leave the canonical text alone *)

Lemma replace_put2 n rest :
  0 <= n <= 99 -> replace "T" " " (put2 n rest) = put2 n (replace "T" " " rest).
Proof. intros Hn. enum_below n 100%nat by reflexivity. Qed.

Lemma strip_canonical dt : valid_datetime dt = true -> strip (canonical dt) = canonical dt.
Proof.
  intros Hv. apply valid_ranges in Hv as (Hy & Hmo & Hd & Hh & Hmi & Hs).
  unfold strip, canonical, put4.
  rewrite lstrip_put2 by (Z.to_euclidean_division_equations; lia).
  repeat match goal with
         | |- rstrip (put2 _ EmptyString) = _ => apply rstrip_put2_last; lia
         | |- rstrip (put2 _ _) = _ => apply rstrip_put2; [|unfold put2; discriminate]
         | |- rstrip (String _ _) = _ => apply rstrip_keep; [|unfold put2; discriminate]
         end.
Qed.

Lemma replace_canonical dt :
  valid_datetime dt = true -> replace "T" " " (canonical dt) = canonical dt.
Proof.
  intros Hv. apply valid_ranges in Hv as (Hy & Hmo & Hd & Hh & Hmi & Hs).
  unfold canonical, put4.
  repeat first [ rewrite replace_put2 by (Z.to_euclidean_division_equations; lia)
               | progress cbn [replace Ascii.eqb Bool.eqb] ].
  reflexivity.
Qed.

Lemma canonical_shape_ok dt :
  valid_datetime dt = true -> canonical_shape (canonical dt) = true.
Proof.
  intros Hv. apply valid_ranges in Hv as (Hy & Hmo & Hd & Hh & Hmi & Hs).
  unfold canonical_shape, canonical, put4, put2.
  cbn [has_shape Ascii.eqb Bool.eqb andb].
  rewrite !is_digit_digit_char by (Z.to_euclidean_division_equations; lia).
  reflexivity.
Qed.

(** ** [normalize_ts] *)

Lemma try_ts_formats_canonical dt :
  valid_datetime dt = true -> 1000 <= dt_year dt ->
  try_ts_formats (canonical dt) fmts = Return (Some (canonical dt)).
Proof.
  intros Hv Hy. unfold fmts. cbn [try_ts_formats].
  rewrite (strptime_canonical_short dt Hv), (strptime_canonical dt Hv).
  cbn [obind try_except_ValueError].
  rewrite strftime_canonical by (trivial; now apply valid_drop_fraction).
  reflexivity.
Qed.

Lemma normalize_ts_canonical_text dt :
  valid_datetime dt = true -> 1000 <= dt_year dt ->
  normalize_ts (Some (canonical dt)) = Return (Some (canonical dt)).
Proof.
  intros Hv Hy. unfold normalize_ts.
  rewrite (strip_canonical dt Hv), (replace_canonical dt Hv).
  rewrite (try_ts_formats_canonical dt Hv Hy).
  reflexivity.
Qed.

(** What the loop over the formats returns. *)
Lemma try_ts_formats_spec s fs :
  (exists f dt, In f fs /\ strptime s f = Return dt
                /\ try_ts_formats s fs = Return (Some (written dt)))
  \/ ((forall f, In f fs -> strptime s f = Raise ValueError)
      /\ try_ts_formats s fs = Return None).
Proof.
  induction fs as [|f fs IH]; [right; split; [intros f []| reflexivity]|].
  cbn [try_ts_formats].
  destruct (strptime s f) as [dt|e] eqn:E.
  - left. exists f, dt. split; [now left|]. split; [trivial|].
    cbn [obind try_except_ValueError].
    now rewrite (strftime_written dt (strptime_valid _ _ _ E)).
  - pose proof (strptime_raises _ _ _ E) as ->.
    cbn [obind try_except_ValueError].
    destruct IH as [(g & dt & Hin & Hg & Hres)|[Hall Hres]].
    + left. exists g, dt. split; [now right|]. now split.
    + right. split; [|trivial]. intros g [<-|Hg]; auto.
Qed.

(** ** The claims on [normalize_ts] *)





(** C9: [normalize_ts] never raises, and it returns [None] on an absent
    input, on the empty text and on every text that none of the three
    formats reads, such as ["not-a-date"]. *)
Theorem normalize_ts_soft_fail :
  (forall ts_input, exists res, normalize_ts ts_input = Return res)
  /\ normalize_ts None = Return None
  /\ normalize_ts (Some EmptyString) = Return None
  /\ (forall ts,
        (forall f dt, In f fmts -> strptime (replace "T" " " (strip ts)) f <> Return dt) ->
        normalize_ts (Some ts) = Return None)
  /\ normalize_ts (Some "not-a-date") = Return None.
Proof.
  split; [|split; [reflexivity|split; [reflexivity|split; [|reflexivity]]]].
  - intros [[|c ts]|]; try (eexists; reflexivity).
    unfold normalize_ts.
    destruct (try_ts_formats_spec (replace "T" " " (strip (String c ts))) fmts)
      as [(f & dt & _ & _ & ->)|[_ ->]]; eexists; reflexivity.
  - intros [|c ts] Hnone; [reflexivity|].
    unfold normalize_ts.
    destruct (try_ts_formats_spec (replace "T" " " (strip (String c ts))) fmts)
      as [(f & dt & Hin & Hf & _)|[_ ->]]; [|reflexivity].
    exfalso. eapply Hnone; eauto.
Qed.

Lemma normalize_ts_soft_fail_witness :
  normalize_ts (Some "08:50") = Return None.
Proof.
  apply (proj1 (proj2 (proj2 (proj2 normalize_ts_soft_fail))) "08:50").
  intros f dt [<-|[<-|[<-|[]]]]; vm_compute; discriminate.
Defined.




(** ** [_parse_hhmm_or_hhmmss] *)

(** The three spellings of the docstring give the same time. *)
Lemma parse_spellings :
  _parse_hhmm_or_hhmmss (Some "8:50") = Return (mk_time 8 50 0 0)
  /\ _parse_hhmm_or_hhmmss (Some "08:50") = Return (mk_time 8 50 0 0)
  /\ _parse_hhmm_or_hhmmss (Some "08:50:00") = Return (mk_time 8 50 0 0).
Proof. repeat split; reflexivity. Qed.

(** Malformed text, the empty text and an absent input raise. *)
Lemma parse_rejects :
  _parse_hhmm_or_hhmmss (Some "25:99") = Raise ValueError
  /\ _parse_hhmm_or_hhmmss (Some EmptyString) = Raise ValueError
  /\ _parse_hhmm_or_hhmmss None = Raise ValueError
  /\ _parse_hhmm_or_hhmmss (Some "08:50:60") = Raise ValueError.
Proof. repeat split; reflexivity. Qed.

(** Every hour and minute written on two digits is read. *)
Lemma parse_two_digits h m :
  0 <= h <= 23 -> 0 <= m <= 59 ->
  _parse_hhmm_or_hhmmss (Some (put2 h (String ":" (put2 m EmptyString))))
  = Return (mk_time h m 0 0).
Proof.
  intros Hh Hm.
  enum_below h 24%nat by (enum_below m 60%nat by reflexivity).
Qed.

(** The function raises nothing but [ValueError]. *)
Lemma parse_raises s e : _parse_hhmm_or_hhmmss s = Raise e -> e = ValueError.
Proof.
  unfold _parse_hhmm_or_hhmmss.
  set (text := strip _). cbn [try_time_formats].
  destruct (strptime text "%H:%M") as [dt|e1] eqn:E1.
  { cbn. discriminate. }
  rewrite (strptime_raises _ _ _ E1). cbn [obind try_except_ValueError].
  destruct (strptime text "%H:%M:%S") as [dt|e2] eqn:E2.
  { cbn. discriminate. }
  rewrite (strptime_raises _ _ _ E2). cbn [obind try_except_ValueError].
  destruct (split ":" text) as [|h [|m [|x rest]]]; try congruence.
  destruct (strptime (zfill 2 h +:+ ":" +:+ zfill 2 m) "%H:%M") as [dt|e3] eqn:E3;
    cbn [obind]; [discriminate|].
  intros [= <-]. eapply strptime_raises; eauto.
Qed.

(** C7, where the code departs from it: a text with an empty hour or an
    empty minute, which is no time in hour:minute form, is not rejected.
    [split] gives two parts, [zfill] turns the empty one into ["00"], and
    the last [strptime] reads the result. *)
Theorem parse_accepts_empty_fields :
  _parse_hhmm_or_hhmmss (Some ":") = Return (mk_time 0 0 0 0)
  /\ _parse_hhmm_or_hhmmss (Some "8:") = Return (mk_time 8 0 0 0)
  /\ _parse_hhmm_or_hhmmss (Some ":50") = Return (mk_time 0 50 0 0).
Proof. repeat split; reflexivity. Qed.

(** ** The scenario of the specification *)

Lemma scenario_resolve :
  resolve_period timetable_gaps (at_time 10 32) = Return (Some period2)
  /\ resolve_period timetable_gaps (at_time 8 0) = Return (Some period1)
  /\ resolve_period timetable_gaps (at_time 15 0) = Return (Some period3).
Proof. repeat split; reflexivity. Qed.

(** From the rows of the store the timetable is not built: the first row
    is read by column name, which a tuple does not take. *)
Lemma scenario_load :
  load_timetable scenario_rows = Raise TypeError
  /\ resolve_period_for scenario_rows (at_time 10 32) = Raise TypeError.
Proof. split; reflexivity. Qed.

(** ** More on period resolution *)

Section ResolutionMore.

Implicit Types (ttable : list rec) (t : time) (r a b : rec) (i j : nat).

Lemma tle_trans (x y z : time) : tle x y -> tle y z -> tle x z.
Proof. unfold tle. lia. Qed.

Lemma tlt_tle_trans (x y z : time) : tlt x y -> tle y z -> tlt x z.
Proof. unfold tlt, tle. lia. Qed.

Lemma tle_tlt_trans (x y z : time) : tle x y -> tlt y z -> tlt x z.
Proof. unfold tlt, tle. lia. Qed.

Lemma tlt_tle (x y : time) : tlt x y -> tle x y.
Proof. unfold tlt, tle. lia. Qed.

Lemma scan_containing_some ttable t r :
  scan_containing ttable t = Some r -> contains r t = true.
Proof.
  induction ttable as [|c rest IH]; [discriminate|].
  simpl. destruct (contains c t) eqn:E; [now intros [= <-] | exact IH].
Qed.

(** Before the first start: step 2, on an ordered timetable. *)
Lemma resolve_period_before ttable ts_dt first_rec :
  ordered ttable = true -> ttable !! 0%nat = Some first_rec ->
  tlt (dt_time ts_dt) (start first_rec) ->
  resolve_period ttable ts_dt = Return (Some first_rec).
Proof.
  intros Hord Hfirst Ht. unfold resolve_period.
  destruct ttable as [|c rest] eqn:Ett; [discriminate|]. rewrite <- Ett in *.
  rewrite scan_containing_none.
  2:{ intros j r' Hj. apply contains_false. left.
      pose proof (ordered_lookup_le _ 0%nat j first_rec r' Hord ltac:(lia) Hfirst Hj)
        as [Hle _].
      eapply tlt_tle_trans; eauto. }
  rewrite Hfirst.
  destruct (last ttable) as [last_rec|] eqn:Hlast.
  - apply time_lt_spec in Ht. now rewrite Ht.
  - apply last_None in Hlast. congruence.
Qed.

(** At or after the last end: step 3, on an ordered timetable. *)
Lemma resolve_period_after ttable ts_dt last_rec :
  ordered ttable = true -> last ttable = Some last_rec ->
  tle (end_ last_rec) (dt_time ts_dt) ->
  resolve_period ttable ts_dt = Return (Some last_rec).
Proof.
  intros Hord Hlast Ht. unfold resolve_period.
  destruct ttable as [|c rest] eqn:Ett; [discriminate|]. rewrite <- Ett in *.
  assert (Hlen : (0 < length ttable)%nat) by (rewrite Ett; simpl; lia).
  pose proof (last_lookup_pred _ _ Hlast) as Hl.
  rewrite scan_containing_none.
  2:{ intros j r' Hj. apply contains_false. right.
      pose proof (lookup_lt_Some _ _ _ Hj).
      pose proof (ordered_lookup_le _ j (length ttable - 1)%nat r' last_rec Hord
                    ltac:(lia) Hj Hl) as [_ Hle].
      eapply tle_trans; eauto. }
  destruct (lookup_lt_is_Some_2 ttable 0%nat) as [first_rec Hfirst]; [lia|].
  rewrite Hfirst, Hlast.
  pose proof (ordered_lookup _ _ _ Hord Hfirst) as Hf.
  pose proof (ordered_lookup_le _ 0%nat (length ttable - 1)%nat first_rec last_rec Hord
                ltac:(lia) Hfirst Hl) as [_ Hfl].
  assert (Hft : tle (start first_rec) (dt_time ts_dt)).
  { eapply tle_trans; [apply tlt_tle; exact Hf|]. eapply tle_trans; eauto. }
  apply time_lt_false in Hft. rewrite Hft.
  apply time_ge_spec in Ht. now rewrite Ht.
Qed.

(** What [first_unfinished] finds. *)
Lemma first_unfinished_Some ttable t r :
  first_unfinished ttable t = Some r ->
  exists i, ttable !! i = Some r /\ tlt t (end_ r)
    /\ forall j r', (j < i)%nat -> ttable !! j = Some r' -> tle (end_ r') t.
Proof.
  induction ttable as [|c rest IH]; [discriminate|].
  simpl. destruct (time_lt t (end_ c)) eqn:E.
  - intros [= <-]. exists 0%nat. split; [reflexivity|].
    split; [now apply time_lt_spec | intros j r' Hj; lia].
  - intros H. destruct (IH H) as (i & Hi & Hr & Hbefore).
    exists (S i). split; [exact Hi|]. split; [exact Hr|].
    intros [|j] r' Hj Hr'.
    + injection Hr' as <-. now apply time_lt_false.
    + apply (Hbefore j); [lia | exact Hr'].
Qed.

Lemma first_unfinished_None ttable t :
  first_unfinished ttable t = None ->
  forall j r', ttable !! j = Some r' -> tle (end_ r') t.
Proof.
  induction ttable as [|c rest IH]; [intros _ j r'; discriminate|].
  simpl. destruct (time_lt t (end_ c)) eqn:E; [discriminate|].
  intros H [|j] r' Hr'.
  - injection Hr' as <-. now apply time_lt_false.
  - now apply (IH H j).
Qed.

(** The index of the interval a well-formed timetable resolves [t] to. *)
Lemma resolve_period_index ttable ts_dt :
  well_formed ttable = true ->
  exists i r, ttable !! i = Some r
    /\ resolve_period ttable ts_dt = Return (Some r)
    /\ match first_unfinished ttable (dt_time ts_dt) with
       | Some r' => r' = r
       | None => last ttable = Some r
       end
    /\ (forall j r', (j < i)%nat -> ttable !! j = Some r' ->
          tle (end_ r') (dt_time ts_dt)).
Proof.
  intros Hwf. pose proof (well_formed_ordered _ Hwf) as Hord.
  set (t := dt_time ts_dt).
  destruct (first_unfinished ttable t) as [r|] eqn:Efu.
  - destruct (first_unfinished_Some _ _ _ Efu) as (i & Hi & Hr & Hbefore).
    exists i, r. split; [exact Hi|]. split; [|split; [reflexivity | exact Hbefore]].
    destruct (time_le (start r) t) eqn:Estart.
    + apply (resolve_period_contains ttable ts_dt i r); trivial.
      apply contains_true. split; [now apply time_le_spec | exact Hr].
    + apply time_le_false in Estart.
      destruct i as [|i].
      * now apply resolve_period_before.
      * destruct (lookup_lt_is_Some_2 ttable i) as [a Ha];
          [apply lookup_lt_Some in Hi; lia|].
        apply (resolve_period_between ttable ts_dt i a r); trivial.
        apply (Hbefore i a); [lia | exact Ha].
  - pose proof (first_unfinished_None _ _ Efu) as Hall.
    destruct (last ttable) as [l|] eqn:Hlast.
    2:{ apply last_None in Hlast. subst. discriminate. }
    exists (length ttable - 1)%nat, l.
    pose proof (last_lookup_pred _ _ Hlast) as Hl.
    split; [exact Hl|]. split; [|split; [reflexivity|]].
    + apply resolve_period_after; trivial. now apply (Hall _ _ Hl).
    + intros j r' _ Hr'. now apply (Hall j).
Qed.

End ResolutionMore.

(** X1: on a well-formed timetable the resolved interval is the first one
    that has not ended at the time of day, and the last one when all have
    ended. *)
Theorem resolve_period_first_unfinished (ttable : list rec) (ts_dt : datetime) :
  well_formed ttable = true ->
  resolve_period ttable ts_dt
  = Return (match first_unfinished ttable (dt_time ts_dt) with
            | Some r => Some r
            | None => last ttable
            end).
Proof.
  intros Hwf.
  destruct (resolve_period_index ttable ts_dt Hwf) as (i & r & _ & -> & Hfu & _).
  destruct (first_unfinished ttable (dt_time ts_dt)); congruence.
Qed.

Lemma resolve_period_first_unfinished_witness :
  resolve_period timetable_gaps (at_time 10 32) = Return (Some period2).
Proof.
  apply (resolve_period_first_unfinished timetable_gaps (at_time 10 32)).
  reflexivity.
Defined.

(** X2: on a well-formed timetable a later time of day never resolves to an
    earlier interval. *)
Theorem resolve_period_monotone (ttable : list rec) (ts1 ts2 : datetime) (r1 r2 : rec) :
  well_formed ttable = true ->
  time_le (dt_time ts1) (dt_time ts2) = true ->
  resolve_period ttable ts1 = Return (Some r1) ->
  resolve_period ttable ts2 = Return (Some r2) ->
  exists i1 i2, (i1 <= i2)%nat /\ ttable !! i1 = Some r1 /\ ttable !! i2 = Some r2.
Proof.
  intros Hwf Hle H1 H2. apply time_le_spec in Hle.
  destruct (resolve_period_index ttable ts1 Hwf) as (i1 & a & Hi1 & Ha & Hfu1 & Hb1).
  destruct (resolve_period_index ttable ts2 Hwf) as (i2 & b & Hi2 & Hb & Hfu2 & Hb2).
  rewrite Ha in H1. injection H1 as ->. rewrite Hb in H2. injection H2 as ->.
  destruct (le_lt_dec i1 i2) as [Hok|Hlt]; [exists i1, i2; auto|].
  exfalso.
  (* interval i2 comes before i1, so it has ended at ts1, hence at ts2 *)
  pose proof (Hb1 i2 r2 Hlt Hi2) as Hended.
  assert (Hended2 : tle (end_ r2) (dt_time ts2)) by (eapply tle_trans; eauto).
  destruct (first_unfinished ttable (dt_time ts2)) as [r'|] eqn:Efu.
  - subst r'. destruct (first_unfinished_Some _ _ _ Efu) as (_ & _ & Hr & _).
    unfold tlt, tle in *. lia.
  - (* r2 is the last interval, so no interval comes after it *)
    pose proof (last_lookup_pred _ _ Hfu2) as Hl.
    pose proof (lookup_lt_Some _ _ _ Hi1) as Hlen.
    pose proof (well_formed_ordered _ Hwf) as Hord.
    pose proof (ordered_lookup_le _ i1 (length ttable - 1)%nat r1 r2 Hord
                  ltac:(lia) Hi1 Hl) as [Hs _].
    pose proof (ordered_lookup_le _ i2 i1 r2 r1 Hord ltac:(lia) Hi2 Hi1) as [Hs' _].
    pose proof (ordered_lookup_lt _ i2 i1 r2 r1 Hord Hlt Hi2 Hi1) as Hgap.
    pose proof (ordered_lookup _ _ _ Hord Hi2) as Hpos.
    clear -Hs Hgap Hpos. unfold tlt, tle in *. lia.
Qed.

Lemma resolve_period_monotone_witness :
  exists i1 i2, (i1 <= i2)%nat /\ timetable_gaps !! i1 = Some period1
                /\ timetable_gaps !! i2 = Some period3.
Proof.
  apply (resolve_period_monotone timetable_gaps (at_time 9 0) (at_time 15 0));
    reflexivity.
Defined.

(** X3: on any timetable, ordered or not, as soon as some interval contains
    the time of day the outcome is the first such interval of the list. *)
Theorem resolve_period_first_containing (ttable : list rec) (ts_dt : datetime)
    (i : nat) (r : rec) :
  ttable !! i = Some r ->
  contains r (dt_time ts_dt) = true ->
  (forall j r', (j < i)%nat -> ttable !! j = Some r' ->
     contains r' (dt_time ts_dt) = false) ->
  resolve_period ttable ts_dt = Return (Some r).
Proof.
  intros Hi Hr Hbefore. unfold resolve_period.
  destruct ttable as [|c rest]; [discriminate|].
  now rewrite (scan_containing_first _ _ i r Hi Hr Hbefore).
Qed.

Lemma resolve_period_first_containing_witness :
  resolve_period timetable_overlap (at_time 9 30)
  = Return (Some (mk_rec 1 (hm 8 0) (hm 12 0))).
Proof.
  apply (resolve_period_first_containing timetable_overlap (at_time 9 30) 0%nat).
  - reflexivity.
  - reflexivity.
  - intros j r' Hj. lia.
Defined.

(** ** [load_timetable] and [resolve_period_for] *)

Lemma parse_outcome s :
  (exists t, _parse_hhmm_or_hhmmss s = Return t)
  \/ _parse_hhmm_or_hhmmss s = Raise ValueError.
Proof.
  destruct (_parse_hhmm_or_hhmmss s) as [t|e] eqn:E; [left; eauto|].
  right. now rewrite (parse_raises _ _ E).
Qed.



(** ** White space around a text *)

Lemma rstrip_idempotent s : rstrip (rstrip s) = rstrip s.
Proof.
  induction s as [|c s IH]; [reflexivity|].
  cbn [rstrip]. destruct (rstrip s) as [|k kept] eqn:E.
  - destruct (is_space c) eqn:Ec; [reflexivity|].
    cbn [rstrip]. now rewrite Ec.
  - apply rstrip_keep; [exact IH | discriminate].
Qed.

Lemma rstrip_head c s :
  is_space c = false -> exists s', rstrip (String c s) = String c s'.
Proof.
  intros Hc. cbn [rstrip]. destruct (rstrip s); [rewrite Hc|]; eauto.
Qed.

Lemma lstrip_head s :
  lstrip s = EmptyString
  \/ exists c s', lstrip s = String c s' /\ is_space c = false.
Proof.
  induction s as [|c s IH]; [now left|].
  cbn [lstrip]. destruct (is_space c) eqn:Ec; [exact IH | right; eauto].
Qed.

Lemma strip_idempotent s : strip (strip s) = strip s.
Proof.
  unfold strip. destruct (lstrip_head s) as [->|(c & s' & -> & Hc)]; [reflexivity|].
  destruct (rstrip_head c s' Hc) as [w Hw].
  rewrite Hw. cbn [lstrip]. rewrite Hc, <- Hw.
  apply rstrip_idempotent.
Qed.

(** ** The groups a pattern can capture *)

Lemma rmatch_names r : forall s m s' g k v,
  In (m, s', g) (rmatch r s) -> In (k, v) g -> In k (group_names r).
Proof.
  induction r as [c|c mx|r1 IH1 r2 IH2|r1 IH1 r2 IH2|name r IH];
    intros s m s' g k v Hin Hk; cbn [rmatch group_names] in *.
  - destruct s as [|a s0]; [destruct Hin|].
    destruct (cls_test c a); [|destruct Hin].
    destruct Hin as [[= <- <- <-]|[]]. destruct Hk.
  - apply in_map_iff in Hin as ([m0 s0] & [= <- <- <-] & _). destruct Hk.
  - apply in_flat_map in Hin as ([[m1 s1] g1] & H1 & Hin).
    apply in_map_iff in Hin as ([[m2 s2] g2] & [= <- <- <-] & H2).
    apply in_app_iff. apply in_app_iff in Hk as [Hk|Hk]; eauto.
  - apply in_app_iff. apply in_app_iff in Hin as [Hin|Hin]; eauto.
  - apply in_map_iff in Hin as ([[m0 s0] g0] & [= <- <- <-] & Hin).
    apply in_app_iff. apply in_app_iff in Hk as [Hk|[[= <- <-]|[]]]; eauto.
    right. now left.
Qed.

Lemma match_seq_names rs : forall s s' g k v,
  In (s', g) (match_seq rs s) -> In (k, v) g ->
  In k (flat_map group_names rs).
Proof.
  induction rs as [|r rs IH]; intros s s' g k v Hin Hk; cbn [match_seq flat_map] in *.
  - destruct Hin as [[= <- <-]|[]]. destruct Hk.
  - apply in_flat_map in Hin as ([[m1 s1] g1] & H1 & Hin).
    apply in_map_iff in Hin as ([s2 g2] & [= <- <-] & H2).
    apply in_app_iff. apply in_app_iff in Hk as [Hk|Hk].
    + left. eapply rmatch_names; eauto.
    + right. eapply IH; eauto.
Qed.

(** Only the group [f] sets the microsecond. *)
Lemma convert_group_microsecond acc k v acc' :
  convert_group acc (k, v) = Return acc' -> k <> "f"%char ->
  dt_microsecond acc' = dt_microsecond acc.
Proof.
  destruct acc. unfold convert_group.
  destruct k as [[] [] [] [] [] [] [] []]; intros H Hk;
    try (injection H as <-; reflexivity);
    try (exfalso; apply Hk; reflexivity);
    match type of H with
    | context [int ?t] => destruct (int t); cbn [obind] in H;
                          [injection H as <-; reflexivity | discriminate]
    end.
Qed.

Lemma convert_groups_microsecond found_dict : forall acc acc',
  convert_groups acc found_dict = Return acc' ->
  ~ In "f"%char (map fst found_dict) ->
  dt_microsecond acc' = dt_microsecond acc.
Proof.
  induction found_dict as [|[k v] rest IH]; intros acc acc'; cbn [convert_groups].
  - now intros [= <-].
  - destruct (convert_group acc (k, v)) as [acc1|] eqn:E; cbn [obind]; [|discriminate].
    intros H Hnot. cbn [map fst In] in Hnot.
    rewrite (IH _ _ H) by tauto.
    eapply convert_group_microsecond; eauto.
Qed.

(** A format without [%f] gives a whole second. *)
Lemma strptime_whole_second s f rs dt :
  pattern f = Some rs -> ~ In "f"%char (flat_map group_names rs) ->
  strptime s f = Return dt -> dt_microsecond dt = 0.
Proof.
  intros Hp Hnot. unfold strptime. rewrite Hp.
  destruct (match_seq rs s) as [|[[|c rest] found_dict] more] eqn:Em;
    try discriminate.
  destruct (convert_groups _ found_dict) as [fields|] eqn:Ec; cbn [obind];
    [|discriminate].
  intros H. apply datetime_new_Return in H as [-> _].
  cbn [dt_microsecond].
  rewrite (convert_groups_microsecond _ _ _ Ec); [reflexivity|].
  intros Hin. apply Hnot. apply in_map_iff in Hin as ([k v] & Hk & Hin).
  cbn in Hk. subst k.
  eapply match_seq_names; [|exact Hin]. rewrite Em. now left.
Qed.

Lemma dt_time_whole_second dt :
  valid_datetime dt = true -> dt_microsecond dt = 0 -> whole_second (dt_time dt).
Proof.
  intros Hv Hus. apply valid_ranges in Hv as (_ & _ & _ & Hh & Hm & Hs).
  unfold whole_second, dt_time. cbn. auto.
Qed.

(** ** More on [_parse_hhmm_or_hhmmss] *)

(** X6: whatever [_parse_hhmm_or_hhmmss] returns is a time of day at a whole
    second: hour 0..23, minute 0..59, second 0..59, microsecond 0. *)
Theorem parse_whole_second (s : option string) (t : time) :
  _parse_hhmm_or_hhmmss s = Return t -> whole_second t.
Proof.
  unfold _parse_hhmm_or_hhmmss. set (text := strip _).
  assert (Hfmt : forall txt f dt,
            f = "%H:%M" \/ f = "%H:%M:%S" ->
            strptime txt f = Return dt -> whole_second (dt_time dt)).
  { intros txt f dt Hf Hdt. apply dt_time_whole_second.
    - eapply strptime_valid; eauto.
    - destruct Hf as [-> | ->].
      + apply (strptime_whole_second txt "%H:%M" [re_H; chr ":"; re_M] dt);
          [reflexivity| |exact Hdt].
        cbv. intuition discriminate.
      + apply (strptime_whole_second txt "%H:%M:%S"
                 [re_H; chr ":"; re_M; chr ":"; re_S] dt);
          [reflexivity| |exact Hdt].
        cbv. intuition discriminate. }
  cbn [try_time_formats].
  destruct (strptime text "%H:%M") as [dt|e1] eqn:E1.
  { cbn [obind try_except_ValueError]. intros [= <-].
    apply (Hfmt text "%H:%M" dt); [now left | exact E1]. }
  rewrite (strptime_raises _ _ _ E1). cbn [obind try_except_ValueError].
  destruct (strptime text "%H:%M:%S") as [dt|e2] eqn:E2.
  { cbn [obind try_except_ValueError]. intros [= <-].
    apply (Hfmt text "%H:%M:%S" dt); [now right | exact E2]. }
  rewrite (strptime_raises _ _ _ E2). cbn [obind try_except_ValueError].
  destruct (split ":" text) as [|h [|m [|x rest]]]; try discriminate.
  destruct (strptime (zfill 2 h +:+ ":" +:+ zfill 2 m) "%H:%M") as [dt|e3] eqn:E3;
    cbn [obind]; [|discriminate].
  intros [= <-].
  apply (Hfmt (zfill 2 h +:+ ":" +:+ zfill 2 m) "%H:%M" dt); [now left | exact E3].
Qed.

Lemma parse_whole_second_witness : whole_second (mk_time 8 50 0 0).
Proof. apply (parse_whole_second (Some "8:50")). reflexivity. Defined.

(** X7: white space around the text does not matter, and an absent text is
    read as the empty one. *)
Theorem parse_strip (s : string) :
  _parse_hhmm_or_hhmmss (Some (strip s)) = _parse_hhmm_or_hhmmss (Some s)
  /\ _parse_hhmm_or_hhmmss None = _parse_hhmm_or_hhmmss (Some EmptyString).
Proof.
  split; [|reflexivity].
  unfold _parse_hhmm_or_hhmmss. now rewrite strip_idempotent.
Qed.

Lemma datetime_new_time h m s :
  0 <= h <= 23 -> 0 <= m <= 59 -> 0 <= s <= 59 ->
  datetime_new 1900 1 1 h m s 0 = Return (mk_datetime 1900 1 1 h m s 0).
Proof.
  intros Hh Hm Hs. apply datetime_new_Return. split; [reflexivity|].
  unfold valid_datetime. fields.
  rewrite !andb_true_iff. repeat split; try reflexivity; apply between_spec; lia.
Qed.

Lemma strip_time_text h m tail :
  0 <= h <= 23 -> 0 <= m <= 59 ->
  rstrip tail = tail ->
  strip (put2 h (String ":" (put2 m tail))) = put2 h (String ":" (put2 m tail)).
Proof.
  intros Hh Hm Htail. unfold strip. rewrite lstrip_put2 by lia.
  apply rstrip_put2; [|discriminate].
  apply rstrip_keep; [|unfold put2; discriminate].
  destruct tail as [|c tail'].
  - apply rstrip_put2_last. lia.
  - apply rstrip_put2; [exact Htail | discriminate].
Qed.

(** X8: the text [HH:MM:SS] of a valid time of day is read back to that
    time, and the text [HH:MM] to that time at second 0. *)
Theorem parse_round_trip (h m s : Z) :
  0 <= h <= 23 -> 0 <= m <= 59 -> 0 <= s <= 59 ->
  _parse_hhmm_or_hhmmss
    (Some (put2 h (String ":" (put2 m (String ":" (put2 s EmptyString))))))
  = Return (mk_time h m s 0)
  /\ _parse_hhmm_or_hhmmss (Some (put2 h (String ":" (put2 m EmptyString))))
     = Return (mk_time h m 0 0).
Proof.
  intros Hh Hm Hs. split; [|now apply parse_two_digits].
  unfold _parse_hhmm_or_hhmmss.
  rewrite strip_time_text; trivial.
  2:{ apply rstrip_keep; [apply rstrip_put2_last; lia | unfold put2; discriminate]. }
  cbn [try_time_formats].
  assert (E1 : strptime (put2 h (String ":" (put2 m (String ":" (put2 s EmptyString)))))
                 "%H:%M" = Raise ValueError).
  { unfold strptime.
    change (pattern "%H:%M") with (Some ([re_H; chr ":"] ++ [re_M])%list).
    cbv beta iota.
    rewrite (match_seq_step _ _ _ _ _ (match_hour h _ Hh)).
    destruct (match_minute_last m (put2 s EmptyString) Hm) as [more ->].
    reflexivity. }
  rewrite E1. cbn [obind try_except_ValueError].
  assert (E2 : strptime (put2 h (String ":" (put2 m (String ":" (put2 s EmptyString)))))
                 "%H:%M:%S" = Return (mk_datetime 1900 1 1 h m s 0)).
  { unfold strptime.
    change (pattern "%H:%M:%S")
      with (Some ([re_H; chr ":"] ++ [re_M; chr ":"] ++ [re_S])%list).
    cbv beta iota.
    rewrite (match_seq_step _ _ _ _ _ (match_hour h _ Hh)).
    rewrite (match_seq_step _ _ _ _ _ (match_minute m _ Hm)).
    destruct (match_second s Hs) as [more ->].
    cbn [map with_groups app convert_groups convert_group].
    repeat (rewrite int_put2 by lia; cbn [obind convert_groups convert_group]).
    cbn [dt_year dt_month dt_day dt_hour dt_minute dt_second dt_microsecond].
    now apply datetime_new_time. }
  rewrite E2. reflexivity.
Qed.

Lemma parse_round_trip_witness :
  _parse_hhmm_or_hhmmss (Some "23:59:58") = Return (mk_time 23 59 58 0)
  /\ _parse_hhmm_or_hhmmss (Some "23:59") = Return (mk_time 23 59 0 0).
Proof. apply (parse_round_trip 23 59 58); lia. Defined.

(** ** More on [normalize_ts] *)

(** X10: white space around the text does not change what [normalize_ts]
    returns. *)
Theorem normalize_ts_strip (ts : string) :
  normalize_ts (Some (strip ts)) = normalize_ts (Some ts).
Proof.
  assert (Hempty : try_ts_formats EmptyString fmts = Return None) by reflexivity.
  unfold normalize_ts.
  destruct ts as [|c ts]; [reflexivity|].
  destruct (strip (String c ts)) as [|c' ts'] eqn:E.
  - cbn [replace]. now rewrite Hempty.
  - rewrite <- E, strip_idempotent. reflexivity.
Qed.

(** ** Texts of digits *)

Lemma digit_not_space c : is_digit c = true -> is_space c = false.
Proof.
  unfold is_digit, is_space. cbv zeta. intros H.
  apply andb_true_iff in H as [H1 H2]. apply Z.leb_le in H1, H2.
  repeat match goal with
         | |- context [?a <=? ?b] => destruct (Z.leb_spec a b)
         | |- context [?a =? ?b] => destruct (Z.eqb_spec a b)
         end; try reflexivity; lia.
Qed.

Lemma digit_value_range c : is_digit c = true -> 0 <= digit_value c <= 9.
Proof.
  unfold is_digit, digit_value. cbv zeta. intros H.
  apply andb_true_iff in H as [H1 H2]. apply Z.leb_le in H1, H2. lia.
Qed.

Lemma rstrip_all_digits s : all_digits s = true -> rstrip s = s.
Proof.
  induction s as [|c s IH]; [reflexivity|].
  cbn [all_digits]. intros H. apply andb_true_iff in H as [Hc Hs].
  cbn [rstrip]. rewrite (IH Hs). destruct s; [|reflexivity].
  now rewrite (digit_not_space c Hc).
Qed.

Lemma strip_all_digits s : all_digits s = true -> strip s = s.
Proof.
  intros H. unfold strip. destruct s as [|c s]; [reflexivity|].
  cbn [all_digits] in H. pose proof H as H'.
  apply andb_true_iff in H' as [Hc _].
  cbn [lstrip]. rewrite (digit_not_space c Hc).
  now apply rstrip_all_digits.
Qed.

Lemma all_digits_app s1 s2 :
  all_digits s1 = true -> all_digits s2 = true -> all_digits (s1 +:+ s2) = true.
Proof.
  induction s1 as [|c s1 IH]; [trivial|].
  cbn [all_digits String.append]. intros H H2.
  apply andb_true_iff in H as [Hc Hs]. rewrite Hc. now apply IH.
Qed.

Lemma all_digits_zeros n : all_digits (zeros n) = true.
Proof. induction n; [reflexivity | exact IHn]. Qed.

Lemma length_app_zeros s n :
  String.length (s +:+ zeros n) = (String.length s + n)%nat.
Proof.
  induction s as [|c s IH]; cbn [String.append String.length].
  - induction n; cbn [zeros String.length]; lia.
  - rewrite IH. lia.
Qed.

(** The value of a text of digits, and how large it can be. *)
Lemma digits_value_bound s : forall acc,
  all_digits s = true -> 0 <= acc ->
  exists n, digits_value acc s = Some n
            /\ 0 <= n < (acc + 1) * 10 ^ Z.of_nat (String.length s).
Proof.
  induction s as [|c s IH]; intros acc H Hacc.
  - exists acc. split; [reflexivity|]. cbn. lia.
  - cbn [all_digits] in H. apply andb_true_iff in H as [Hc Hs].
    pose proof (digit_value_range c Hc) as Hv.
    cbn [digits_value]. rewrite Hc.
    destruct (IH (10 * acc + digit_value c) Hs ltac:(lia)) as (n & -> & Hn).
    exists n. split; [reflexivity|].
    cbn [String.length]. rewrite Nat2Z.inj_succ, Z.pow_succ_r by lia.
    assert (0 < 10 ^ Z.of_nat (String.length s)) by (apply Z.pow_pos_nonneg; lia).
    nia.
Qed.

(** [int] of a fraction of one to six digits, padded to six. *)
Lemma int_fraction frac :
  all_digits frac = true ->
  (1 <= String.length frac <= 6)%nat ->
  exists us, int (frac +:+ zeros (6 - String.length frac)) = Return us
             /\ 0 <= us <= 999999.
Proof.
  intros Hd Hlen.
  set (padded := frac +:+ zeros (6 - String.length frac)).
  assert (Hp : all_digits padded = true)
    by (apply all_digits_app; [exact Hd | apply all_digits_zeros]).
  assert (Hl : String.length padded = 6%nat)
    by (unfold padded; rewrite length_app_zeros; lia).
  destruct (digits_value_bound padded 0 Hp ltac:(lia)) as (n & Hn & Hb).
  rewrite Hl in Hb. change (10 ^ Z.of_nat 6) with 1000000 in Hb.
  exists n. split; [|lia].
  unfold int. rewrite (strip_all_digits _ Hp).
  destruct padded as [|c rest]; [discriminate|].
  now rewrite Hn.
Qed.

(** ** The last items of the three formats *)

Lemma match_minute_end mi :
  0 <= mi <= 59 ->
  exists more,
    match_seq [re_M] (put2 mi EmptyString)
    = (EmptyString, [("M"%char, put2 mi EmptyString)]) :: more.
Proof. intros Hm. enum_below mi 60%nat by (eexists; reflexivity). Qed.

Lemma match_second_stop sec tail :
  0 <= sec <= 59 ->
  exists more,
    match_seq [re_S] (put2 sec (String "." tail))
    = (String "." tail, [("S"%char, put2 sec EmptyString)]) :: more.
Proof. intros Hs. enum_below sec 60%nat by (eexists; reflexivity). Qed.

Lemma match_second_dot sec tail :
  0 <= sec <= 59 ->
  match_seq [re_S; chr "."] (put2 sec (String "." tail))
  = [(tail, [("S"%char, put2 sec EmptyString)])].
Proof. intros Hs. enum_below sec 60%nat by reflexivity. Qed.

(** Greedy repetition takes a whole text of digits first. *)
Lemma match_many1_all s : forall fuel,
  all_digits s = true -> (1 <= String.length s <= fuel)%nat ->
  exists more,
    match_many1 (Range "0" "9") fuel s = (s, EmptyString) :: more.
Proof.
  induction s as [|c s IH]; intros fuel Hd Hlen; cbn [String.length] in Hlen; [lia|].
  destruct fuel as [|fuel]; [lia|].
  cbn [all_digits] in Hd. apply andb_true_iff in Hd as [Hc Hs].
  cbn [match_many1].
  change (cls_test (Range "0" "9") c) with (is_digit c). rewrite Hc.
  destruct s as [|c' s'].
  - destruct fuel; eexists; reflexivity.
  - destruct (IH fuel Hs) as [more ->]; [cbn [String.length] in *; lia|].
    eexists. reflexivity.
Qed.

Lemma match_fraction frac :
  all_digits frac = true -> (1 <= String.length frac <= 6)%nat ->
  exists more,
    match_seq [re_f] frac = (EmptyString, [("f"%char, frac)]) :: more.
Proof.
  intros Hd Hlen. cbn [match_seq re_f rmatch].
  destruct (match_many1_all frac 6 Hd Hlen) as [more ->].
  eexists. reflexivity.
Qed.

Lemma normalize_ts_nonempty c s :
  normalize_ts (Some (String c s))
  = try_ts_formats (replace "T" " " (strip (String c s))) fmts.
Proof. reflexivity. Qed.

Lemma replace_all_digits s : all_digits s = true -> replace "T" " " s = s.
Proof.
  induction s as [|c s IH]; [reflexivity|].
  cbn [all_digits replace]. intros H. apply andb_true_iff in H as [Hc Hs].
  rewrite (IH Hs). destruct (Ascii.eqb_spec c "T") as [->|_]; [discriminate|].
  reflexivity.
Qed.

Ltac rstrip_steps :=
  repeat match goal with
         | |- rstrip (put2 _ EmptyString) = _ => apply rstrip_put2_last; lia
         | |- rstrip (put2 _ _) = _ => apply rstrip_put2; [|unfold put2; discriminate]
         | |- rstrip (String _ _) = _ => apply rstrip_keep; [|unfold put2; discriminate]
         end.

Lemma strip_minute_text sep dt :
  valid_datetime dt = true -> strip (minute_text sep dt) = minute_text sep dt.
Proof.
  intros Hv. apply valid_ranges in Hv as (Hy & Hmo & Hd & Hh & Hmi & Hs).
  unfold strip, minute_text, put4.
  rewrite lstrip_put2 by div_lia. rstrip_steps.
Qed.

Lemma replace_minute_text sep dt :
  sep = " "%char \/ sep = "T"%char ->
  valid_datetime dt = true ->
  replace "T" " " (minute_text sep dt) = minute_text " " dt.
Proof.
  intros Hsep Hv. apply valid_ranges in Hv as (Hy & Hmo & Hd & Hh & Hmi & Hs).
  unfold minute_text, put4.
  repeat first [ rewrite replace_put2 by div_lia
               | progress cbn [replace] ].
  destruct Hsep as [-> | ->]; reflexivity.
Qed.

Lemma strip_canonical_then dt c rest :
  valid_datetime dt = true ->
  rstrip (String c rest) = String c rest ->
  strip (canonical_then dt (String c rest)) = canonical_then dt (String c rest).
Proof.
  intros Hv Hrest. apply valid_ranges in Hv as (Hy & Hmo & Hd & Hh & Hmi & Hs).
  unfold strip, canonical_then, put4.
  rewrite lstrip_put2 by div_lia.
  do 5 (first [ apply rstrip_put2; [|unfold put2; discriminate]
              | apply rstrip_keep; [|unfold put2; discriminate] ]).
  rstrip_steps; try exact Hrest.
Qed.

Lemma replace_canonical_then dt rest :
  valid_datetime dt = true ->
  replace "T" " " (canonical_then dt rest) = canonical_then dt (replace "T" " " rest).
Proof.
  intros Hv. apply valid_ranges in Hv as (Hy & Hmo & Hd & Hh & Hmi & Hs).
  unfold canonical_then, put4.
  repeat first [ rewrite replace_put2 by div_lia
               | progress cbn [replace Ascii.eqb Bool.eqb] ].
  reflexivity.
Qed.

Lemma valid_drop_seconds dt :
  valid_datetime dt = true -> valid_datetime (drop_seconds dt) = true.
Proof.
  unfold valid_datetime, drop_seconds. intros H. fields.
  rewrite !andb_true_iff in *. intuition.
Qed.

(** ** A year below 1000 *)

(** [%Y] needs four digits. *)
Lemma rmatch_year_digits c1 c2 c3 c4 rest :
  is_digit c1 && is_digit c2 && is_digit c3 && is_digit c4 = false ->
  rmatch re_Y (String c1 (String c2 (String c3 (String c4 rest)))) = [].
Proof.
  intros H. cbn [rmatch re_Y digit cls_test flat_map map app].
  destruct (is_digit c1); cbn [flat_map map app]; [|reflexivity].
  destruct (is_digit c2); cbn [flat_map map app]; [|reflexivity].
  destruct (is_digit c3); cbn [flat_map map app]; [|reflexivity].
  destruct (is_digit c4); cbn [flat_map map app]; [discriminate H | reflexivity].
Qed.

Lemma fmts_year f : In f fmts -> exists rs, pattern f = Some (re_Y :: rs).
Proof. intros [<-|[<-|[<-|[]]]]; eexists; reflexivity. Qed.

(** The first four characters of the text written for a year below 1000
    are not all digits. *)
Lemma written_small dt :
  valid_datetime dt = true -> dt_year dt < 1000 ->
  exists c1 c2 c3 c4 rest,
    written dt = String c1 (String c2 (String c3 (String c4 rest)))
    /\ is_digit c1 = true
    /\ is_digit c2 && is_digit c3 && is_digit c4 = false.
Proof.
  intros Hv Hy. pose proof (valid_ranges dt Hv) as (Hy1 & _).
  unfold written, year_text, after_year.
  destruct (Z.ltb_spec (dt_year dt) 10).
  { unfold put2. do 5 eexists. split; [reflexivity|].
    split; [apply is_digit_digit_char; lia | reflexivity]. }
  destruct (Z.ltb_spec (dt_year dt) 100).
  { unfold put2. do 5 eexists. split; [reflexivity|].
    split; [apply is_digit_digit_char; div_lia|].
    change (is_digit "-") with false. now rewrite andb_false_r. }
  destruct (Z.ltb_spec (dt_year dt) 1000); [|lia].
  unfold put2. do 5 eexists. split; [reflexivity|].
  split; [apply is_digit_digit_char; div_lia|].
  change (is_digit "-") with false. now rewrite andb_false_r.
Qed.

Lemma canonical_shape_small dt :
  valid_datetime dt = true -> dt_year dt < 1000 ->
  canonical_shape (written dt) = false.
Proof.
  intros Hv Hy.
  destruct (written_small dt Hv Hy) as (c1 & c2 & c3 & c4 & rest & -> & H1 & H).
  unfold canonical_shape. cbn [has_shape Ascii.eqb Bool.eqb].
  rewrite H1. cbn [andb].
  destruct (is_digit c2); [|reflexivity].
  destruct (is_digit c3); [|reflexivity].
  destruct (is_digit c4); [discriminate H | reflexivity].
Qed.

Lemma strptime_small dt f :
  valid_datetime dt = true -> dt_year dt < 1000 -> In f fmts ->
  strptime (written dt) f = Raise ValueError.
Proof.
  intros Hv Hy Hf.
  destruct (written_small dt Hv Hy) as (c1 & c2 & c3 & c4 & rest & -> & H1 & H).
  destruct (fmts_year f Hf) as [rs Hp].
  unfold strptime. rewrite Hp, match_seq_cons, rmatch_year_digits; [reflexivity|].
  now rewrite H1.
Qed.

Lemma is_space_digit_char x : 0 <= x <= 9 -> is_space (digit_char x) = false.
Proof. intros Hx. enum_below x 10%nat by reflexivity. Qed.

Lemma replace_digit_char x rest :
  0 <= x <= 9 ->
  replace "T" " " (String (digit_char x) rest)
  = String (digit_char x) (replace "T" " " rest).
Proof. intros Hx. enum_below x 10%nat by reflexivity. Qed.

(** [strip] and [replace] leave the written text alone. *)
Lemma strip_written dt : valid_datetime dt = true -> strip (written dt) = written dt.
Proof.
  intros Hv. pose proof (valid_ranges dt Hv) as (Hy & Hmo & Hd & Hh & Hmi & Hs).
  assert (Ht : rstrip (after_year dt) = after_year dt)
    by (unfold after_year; rstrip_steps).
  assert (Hne : after_year dt <> EmptyString) by discriminate.
  unfold strip, written, year_text.
  destruct (Z.ltb_spec (dt_year dt) 10).
  { cbn [lstrip]. rewrite is_space_digit_char by lia. now apply rstrip_keep. }
  destruct (Z.ltb_spec (dt_year dt) 100).
  { rewrite lstrip_put2 by lia. now apply rstrip_put2. }
  destruct (Z.ltb_spec (dt_year dt) 1000).
  { cbn [lstrip]. rewrite is_space_digit_char by div_lia.
    apply rstrip_keep; [now apply rstrip_put2 | unfold put2; discriminate]. }
  exact (strip_canonical dt Hv).
Qed.

Lemma replace_written dt :
  valid_datetime dt = true -> replace "T" " " (written dt) = written dt.
Proof.
  intros Hv. pose proof (valid_ranges dt Hv) as (Hy & Hmo & Hd & Hh & Hmi & Hs).
  assert (Ht : replace "T" " " (after_year dt) = after_year dt).
  { unfold after_year.
    repeat first [ rewrite replace_put2 by lia
                 | progress cbn [replace Ascii.eqb Bool.eqb] ].
    reflexivity. }
  unfold written, year_text.
  destruct (Z.ltb_spec (dt_year dt) 10).
  { rewrite replace_digit_char by lia. now rewrite Ht. }
  destruct (Z.ltb_spec (dt_year dt) 100).
  { rewrite replace_put2 by lia. now rewrite Ht. }
  destruct (Z.ltb_spec (dt_year dt) 1000).
  { rewrite replace_digit_char, replace_put2 by div_lia. now rewrite Ht. }
  exact (replace_canonical dt Hv).
Qed.

(** The text written for a year below 1000 is normalised to [None]. *)
Lemma normalize_ts_small dt :
  valid_datetime dt = true -> dt_year dt < 1000 ->
  normalize_ts (Some (written dt)) = Return None.
Proof.
  intros Hv Hy.
  destruct (written_small dt Hv Hy) as (c1 & c2 & c3 & c4 & rest & E & _).
  rewrite E, normalize_ts_nonempty, <- E.
  rewrite (strip_written dt Hv), (replace_written dt Hv).
  unfold fmts. cbn [try_ts_formats].
  rewrite !(strptime_small dt) by (trivial; unfold fmts; cbn; tauto).
  reflexivity.
Qed.

(** X9: every text [normalize_ts] returns is what [strftime] writes for a
    valid date and time at a whole second: the year without leading zeros,
    the other fields on two digits.  From the year 1000 on it has the shape
    [dddd-dd-dd dd:dd:dd], the format [%Y-%m-%d %H:%M:%S] reads it back to
    that date and time, and [normalize_ts] returns it unchanged; below 1000
    it does not have that shape and [normalize_ts] returns [None] on it. *)
Theorem normalize_ts_result (ts_input : option string) (out : string) :
  normalize_ts ts_input = Return (Some out) ->
  exists dt,
    valid_datetime dt = true
    /\ dt_microsecond dt = 0
    /\ strftime dt "%Y-%m-%d %H:%M:%S" = out
    /\ out = written dt
    /\ if 1000 <=? dt_year dt
       then canonical_shape out = true
            /\ strptime out "%Y-%m-%d %H:%M:%S" = Return dt
            /\ normalize_ts (Some out) = Return (Some out)
       else canonical_shape out = false
            /\ normalize_ts (Some out) = Return None.
Proof.
  destruct ts_input as [[|c ts]|]; try discriminate.
  unfold normalize_ts at 1.
  destruct (try_ts_formats_spec (replace "T" " " (strip (String c ts))) fmts)
    as [(f & dt & _ & Hf & ->)|[_ ->]]; [|discriminate].
  intros [= <-]. pose proof (strptime_valid _ _ _ Hf) as Hv.
  pose proof (valid_drop_fraction dt Hv) as Hv'.
  exists (drop_fraction dt).
  split; [exact Hv'|]. split; [reflexivity|].
  split; [now rewrite strftime_written|]. split; [reflexivity|].
  change (dt_year (drop_fraction dt)) with (dt_year dt).
  destruct (Z.leb_spec 1000 (dt_year dt)) as [Hy|Hy].
  - rewrite (written_canonical dt Hy).
    split; [now apply canonical_shape_ok|].
    split; [now apply strptime_canonical|].
    now apply normalize_ts_canonical_text.
  - split; [now apply canonical_shape_small|].
    now apply normalize_ts_small.
Qed.

Lemma normalize_ts_result_witness :
  exists dt,
    valid_datetime dt = true
    /\ dt_microsecond dt = 0
    /\ strftime dt "%Y-%m-%d %H:%M:%S" = "999-01-02 03:04:00"
    /\ "999-01-02 03:04:00" = written dt
    /\ if 1000 <=? dt_year dt
       then canonical_shape "999-01-02 03:04:00" = true
            /\ strptime "999-01-02 03:04:00" "%Y-%m-%d %H:%M:%S" = Return dt
            /\ normalize_ts (Some "999-01-02 03:04:00")
               = Return (Some "999-01-02 03:04:00")
       else canonical_shape "999-01-02 03:04:00" = false
            /\ normalize_ts (Some "999-01-02 03:04:00") = Return None.
Proof.
  apply (normalize_ts_result (Some "0999-01-02T03:04")). vm_compute. reflexivity.
Defined.

(** X11: a date with its year on four digits and an hour:minute text,
    joined by a space or by [T], is normalised to the text [strftime] writes
    for that minute with seconds [00]: the year without leading zeros, and so
    the canonical text from the year 1000 on. *)
Theorem normalize_ts_minutes (sep : ascii) (dt : datetime) :
  sep = " "%char \/ sep = "T"%char ->
  valid_datetime dt = true ->
  normalize_ts (Some (minute_text sep dt))
  = Return (Some (written (drop_seconds dt)))
  /\ (1000 <= dt_year dt ->
      normalize_ts (Some (minute_text sep dt))
      = Return (Some (canonical (drop_seconds dt)))).
Proof.
  intros Hsep Hv.
  assert (Hmain : normalize_ts (Some (minute_text sep dt))
                  = Return (Some (written (drop_seconds dt))));
    [|split; [exact Hmain | intros Hy; rewrite Hmain;
                            now rewrite (written_canonical (drop_seconds dt) Hy)]].
  unfold minute_text at 1, put4 at 1, put2 at 1. rewrite normalize_ts_nonempty.
  change (String _ _) with (minute_text sep dt).
  rewrite (strip_minute_text sep dt Hv), (replace_minute_text sep dt Hsep Hv).
  assert (E : strptime (minute_text " " dt) "%Y-%m-%d %H:%M"
              = Return (drop_seconds dt)).
  { unfold strptime.
    change (pattern "%Y-%m-%d %H:%M")
      with (Some ((([re_Y; chr "-"] ++ [re_m; chr "-"]
                    ++ [re_d; spaces; re_H; chr ":"]) ++ [re_M])%list)).
    cbv beta iota. unfold minute_text.
    rewrite (match_seq_step _ _ _ _ _ (match_date_hour dt _ Hv)).
    pose proof (valid_ranges dt Hv) as (Hy & Hmo & Hd & Hh & Hmi & _).
    destruct (match_minute_end _ Hmi) as [more ->].
    unfold canonical_groups.
    cbn [map with_groups app convert_groups convert_group].
    rewrite int_put4 by lia. cbn [obind convert_groups convert_group].
    repeat (rewrite int_put2 by lia; cbn [obind convert_groups convert_group]).
    apply datetime_new_Return. split; [reflexivity|].
    now apply valid_drop_seconds. }
  unfold fmts. cbn [try_ts_formats]. rewrite E.
  cbn [obind try_except_ValueError].
  now rewrite strftime_written by now apply valid_drop_seconds.
Qed.

Lemma normalize_ts_minutes_witness :
  normalize_ts (Some (minute_text "T" (mk_datetime 2025 4 8 8 50 0 0)))
  = Return (Some (written (drop_seconds (mk_datetime 2025 4 8 8 50 0 0))))
  /\ (1000 <= dt_year (mk_datetime 2025 4 8 8 50 0 0) ->
      normalize_ts (Some (minute_text "T" (mk_datetime 2025 4 8 8 50 0 0)))
      = Return (Some (canonical (drop_seconds (mk_datetime 2025 4 8 8 50 0 0))))).
Proof.
  apply (normalize_ts_minutes "T" (mk_datetime 2025 4 8 8 50 0 0));
    [now right | reflexivity].
Defined.

(** X12: a fraction of one to six digits after the seconds is discarded:
    the canonical text followed by [.] and the fraction is normalised to the
    text [strftime] writes for that second, which has no fraction and is the
    canonical text from the year 1000 on. *)
Theorem normalize_ts_fraction (dt : datetime) (frac : string) :
  valid_datetime dt = true ->
  all_digits frac = true ->
  (1 <= String.length frac <= 6)%nat ->
  normalize_ts (Some (canonical_then dt (String "." frac)))
  = Return (Some (written dt))
  /\ (1000 <= dt_year dt ->
      normalize_ts (Some (canonical_then dt (String "." frac)))
      = Return (Some (canonical dt))).
Proof.
  intros Hv Hd Hlen.
  assert (Hmain : normalize_ts (Some (canonical_then dt (String "." frac)))
                  = Return (Some (written dt)));
    [|split; [exact Hmain | intros Hy1000; rewrite Hmain;
                            now rewrite (written_canonical dt Hy1000)]].
  pose proof (valid_ranges dt Hv) as (Hy & Hmo & Hday & Hh & Hmi & Hs).
  unfold canonical_then at 1, put4 at 1, put2 at 1. rewrite normalize_ts_nonempty.
  change (String _ _) with (canonical_then dt (String "." frac)).
  rewrite (strip_canonical_then dt "." frac Hv).
  2:{ destruct frac as [|c frac']; [cbn in Hlen; lia|].
      apply rstrip_keep; [now apply rstrip_all_digits | discriminate]. }
  rewrite (replace_canonical_then dt _ Hv).
  cbn [replace Ascii.eqb Bool.eqb]. rewrite (replace_all_digits frac Hd).
  assert (E1 : strptime (canonical_then dt (String "." frac)) "%Y-%m-%d %H:%M"
               = Raise ValueError).
  { unfold strptime.
    change (pattern "%Y-%m-%d %H:%M")
      with (Some ((([re_Y; chr "-"] ++ [re_m; chr "-"]
                    ++ [re_d; spaces; re_H; chr ":"]) ++ [re_M])%list)).
    cbv beta iota. unfold canonical_then.
    rewrite (match_seq_step _ _ _ _ _ (match_date_hour dt _ Hv)).
    destruct (match_minute_last (dt_minute dt)
                (put2 (dt_second dt) (String "." frac)) Hmi) as [more ->].
    reflexivity. }
  assert (E2 : strptime (canonical_then dt (String "." frac)) "%Y-%m-%d %H:%M:%S"
               = Raise ValueError).
  { unfold strptime.
    change (pattern "%Y-%m-%d %H:%M:%S")
      with (Some ((([re_Y; chr "-"] ++ [re_m; chr "-"]
                    ++ [re_d; spaces; re_H; chr ":"])
                   ++ [re_M; chr ":"] ++ [re_S])%list)).
    cbv beta iota. unfold canonical_then.
    rewrite (match_seq_step _ _ _ _ _ (match_date_hour dt _ Hv)).
    rewrite (match_seq_step _ _ _ _ _ (match_minute _ _ Hmi)).
    destruct (match_second_stop (dt_second dt) frac Hs) as [more ->].
    reflexivity. }
  destruct (int_fraction frac Hd Hlen) as (us & Hus & Hrange).
  assert (E3 : strptime (canonical_then dt (String "." frac)) "%Y-%m-%d %H:%M:%S.%f"
               = Return (mk_datetime (dt_year dt) (dt_month dt) (dt_day dt)
                           (dt_hour dt) (dt_minute dt) (dt_second dt) us)).
  { unfold strptime.
    change (pattern "%Y-%m-%d %H:%M:%S.%f")
      with (Some ((([re_Y; chr "-"] ++ [re_m; chr "-"]
                    ++ [re_d; spaces; re_H; chr ":"])
                   ++ [re_M; chr ":"] ++ [re_S; chr "."] ++ [re_f])%list)).
    cbv beta iota. unfold canonical_then.
    rewrite (match_seq_step _ _ _ _ _ (match_date_hour dt _ Hv)).
    rewrite (match_seq_step _ _ _ _ _ (match_minute _ _ Hmi)).
    rewrite (match_seq_step _ _ _ _ _ (match_second_dot _ _ Hs)).
    destruct (match_fraction frac Hd Hlen) as [more ->].
    unfold canonical_groups.
    cbn [map with_groups app convert_groups convert_group].
    rewrite int_put4 by lia. cbn [obind convert_groups convert_group].
    repeat (rewrite int_put2 by lia; cbn [obind convert_groups convert_group]).
    rewrite Hus. cbn [obind convert_groups].
    apply datetime_new_Return. split; [reflexivity|].
    unfold valid_datetime in *. fields.
    rewrite !andb_true_iff in *. repeat split; try tauto.
    apply between_spec. lia. }
  unfold fmts. cbn [try_ts_formats]. rewrite E1, E2, E3.
  cbn [obind try_except_ValueError].
  rewrite strftime_written; [reflexivity|].
  unfold valid_datetime in *. fields.
  rewrite !andb_true_iff in *. repeat split; try tauto.
  apply between_spec. lia.
Qed.

Lemma normalize_ts_fraction_witness :
  normalize_ts (Some (canonical_then (mk_datetime 2025 4 8 8 50 0 0) ".123456"))
  = Return (Some (written (mk_datetime 2025 4 8 8 50 0 0)))
  /\ (1000 <= dt_year (mk_datetime 2025 4 8 8 50 0 0) ->
      normalize_ts (Some (canonical_then (mk_datetime 2025 4 8 8 50 0 0) ".123456"))
      = Return (Some (canonical (mk_datetime 2025 4 8 8 50 0 0)))).
Proof.
  apply (normalize_ts_fraction (mk_datetime 2025 4 8 8 50 0 0) "123456");
    [reflexivity | reflexivity | cbn; lia].
Defined.

(** ** The master tables *)

Lemma max_subject_id_spec subjects :
  match max_subject_id subjects with
  | None => subjects = []
  | Some m =>
      (exists s, In s subjects /\ subject_id s = m)
      /\ forall s, In s subjects -> subject_id s <= m
  end.
Proof.
  induction subjects as [|s rest IH]; [reflexivity|].
  cbn [max_subject_id]. destruct (max_subject_id rest) as [m|].
  - destruct IH as [(s0 & Hin & Hs0) Hmax]. split.
    + destruct (Z.max_spec (subject_id s) m) as [[_ ->]|[_ ->]].
      * exists s0. split; [now right | exact Hs0].
      * exists s. split; [now left | reflexivity].
    + intros x [<-|Hx]; [lia|]. specialize (Hmax x Hx). lia.
  - subst rest. split.
    + exists s. split; [now left | reflexivity].
    + intros x [<-|[]]. lia.
Qed.

Lemma next_subject_id_above subjects s :
  In s subjects -> subject_id s < _next_subject_id subjects.
Proof.
  intros Hs. unfold _next_subject_id.
  pose proof (max_subject_id_spec subjects) as H.
  destruct (max_subject_id subjects) as [m|].
  - destruct H as [_ Hmax]. specialize (Hmax s Hs). lia.
  - subst subjects. destruct Hs.
Qed.

(** X13: the identifier [_next_subject_id] returns is larger than every
    identifier of the table, hence not in use; it is 1 on the empty table
    and one more than an existing identifier otherwise. *)
Theorem next_subject_id_fresh (subjects : list subject) :
  (forall s, In s subjects -> subject_id s < _next_subject_id subjects)
  /\ ~ In (_next_subject_id subjects) (map subject_id subjects)
  /\ (subjects = [] -> _next_subject_id subjects = 1)
  /\ (subjects <> [] ->
      exists s, In s subjects /\ _next_subject_id subjects = subject_id s + 1).
Proof.
  split; [intros s; apply next_subject_id_above|]. split; [|split].
  - intros Hmem. apply in_map_iff in Hmem as (s & Hs & Hin).
    pose proof (next_subject_id_above subjects s Hin). lia.
  - now intros ->.
  - intros Hne. unfold _next_subject_id.
    pose proof (max_subject_id_spec subjects) as H.
    destruct (max_subject_id subjects) as [m|]; [|congruence].
    destruct H as [(s0 & Hin & Hs0) _].
    exists s0. split; [exact Hin | now rewrite Hs0].
Qed.

Lemma next_subject_id_fresh_witness :
  _next_subject_id [] = 1.
Proof. apply (next_subject_id_fresh []). reflexivity. Defined.

(** X14: when no two rows of 生徒 share their key, [get_official_student]
    returns a name exactly when the table has a row with that number,
    department and name, and [None] exactly when it has no row with that
    number and department. *)
Theorem get_official_student_lookup (students : list student) (number gakka : Z) :
  unique_student_keys students = true ->
  (forall name, get_official_student students number gakka = Some name
                <-> exists r, In r students /\ student_number r = number
                              /\ student_gakka r = gakka /\ student_name r = name)
  /\ (get_official_student students number gakka = None
      <-> forall r, In r students ->
            ~ (student_number r = number /\ student_gakka r = gakka)).
Proof.
  intros Hkey. unfold get_official_student.
  set (p := fun r => (student_number r =? number) && (student_gakka r =? gakka)).
  assert (Hp : forall r, p r = true
                         <-> student_number r = number /\ student_gakka r = gakka).
  { intros r. unfold p. rewrite andb_true_iff, !Z.eqb_eq. tauto. }
  assert (Huniq : forall r1 r2, In r1 (List.filter p students) ->
                    In r2 (List.filter p students) ->
                    student_name r1 = student_name r2).
  { induction students as [|a rest IH]; [intros ? ? []|].
    cbn [unique_student_keys] in Hkey.
    apply andb_true_iff in Hkey as [Hnot Hrest].
    specialize (IH Hrest). cbn [List.filter].
    assert (Hrest_no : p a = true -> List.filter p rest = []).
    { intros Ha. destruct (List.filter p rest) as [|b l] eqn:E; [reflexivity|].
      exfalso.
      assert (Hb : In b (List.filter p rest)) by (rewrite E; now left).
      apply filter_In in Hb as [Hin Hb]. apply Hp in Ha, Hb.
      apply negb_true_iff in Hnot.
      assert (Hex : existsb (same_student_key a) rest = true).
      { apply existsb_exists. exists b. split; [exact Hin|].
        unfold same_student_key. rewrite andb_true_iff, !Z.eqb_eq.
        destruct Ha, Hb. split; congruence. }
      congruence. }
    destruct (p a) eqn:Ea.
    - rewrite (Hrest_no eq_refl). intros r1 r2 [<-|[]] [<-|[]]. reflexivity.
    - exact IH. }
  split.
  - intros name. split.
    + destruct (List.filter p students) as [|row l] eqn:E; [discriminate|].
      intros [= <-]. exists row.
      assert (Hrow : In row (List.filter p students)) by (rewrite E; now left).
      apply filter_In in Hrow as [Hin Hrow]. apply Hp in Hrow as [? ?]. auto.
    + intros (r & Hin & Hn & Hg & Hname).
      assert (Hr : In r (List.filter p students))
        by (apply filter_In; split; [exact Hin | apply Hp; auto]).
      destruct (List.filter p students) as [|row l] eqn:E; [destruct Hr|].
      f_equal. rewrite <- Hname. apply Huniq; [now left | exact Hr].
  - split.
    + destruct (List.filter p students) as [|row l] eqn:E; [|discriminate].
      intros _ r Hin Hr.
      assert (Hf : In r (List.filter p students))
        by (apply filter_In; split; [exact Hin | now apply Hp]).
      rewrite E in Hf. destruct Hf.
    + intros Hnone.
      destruct (List.filter p students) as [|row l] eqn:E; [reflexivity|].
      exfalso.
      assert (Hrow : In row (List.filter p students)) by (rewrite E; now left).
      apply filter_In in Hrow as [Hin Hrow]. apply Hp in Hrow.
      exact (Hnone row Hin Hrow).
Qed.

Lemma get_official_student_lookup_witness :
  get_official_student some_students 2 3 = Some "Akasaka"
  <-> exists r, In r some_students /\ student_number r = 2
                /\ student_gakka r = 3 /\ student_name r = "Akasaka".
Proof.
  apply (get_official_student_lookup some_students 2 3). reflexivity.
Defined.

(** X15: when no two rows of 授業科目 share their identifier,
    [get_subject_name_by_id] returns the name of the row with that
    identifier; without such a row it returns the default 未設定, and so it
    does for the identifier [_next_subject_id] proposes. *)
Theorem get_subject_name_by_id_lookup (subjects : list subject) :
  unique_subject_ids subjects = true ->
  (forall s, In s subjects ->
     get_subject_name_by_id subjects (subject_id s) = subject_name s)
  /\ (forall id, (forall s, In s subjects -> subject_id s <> id) ->
        get_subject_name_by_id subjects id = "未設定")
  /\ get_subject_name_by_id subjects (_next_subject_id subjects) = "未設定".
Proof.
  intros Hkey.
  assert (Hmiss : forall id, (forall s, In s subjects -> subject_id s <> id) ->
                    get_subject_name_by_id subjects id = "未設定").
  { intros id Hno. unfold get_subject_name_by_id.
    destruct (List.filter _ subjects) as [|row l] eqn:E; [reflexivity|].
    exfalso.
    assert (Hrow : In row (List.filter (fun s => subject_id s =? id) subjects))
      by (rewrite E; now left).
    apply filter_In in Hrow as [Hin Hrow]. apply Z.eqb_eq in Hrow.
    exact (Hno row Hin Hrow). }
  split; [|split; [exact Hmiss|]].
  - induction subjects as [|a rest IH]; [intros s []|].
    cbn [unique_subject_ids] in Hkey.
    apply andb_true_iff in Hkey as [Hnot Hrest]. apply negb_true_iff in Hnot.
    assert (Hfresh : forall x, In x rest -> subject_id a <> subject_id x).
    { intros x Hx Heq.
      assert (existsb (fun x => subject_id a =? subject_id x) rest = true).
      { apply existsb_exists. exists x. split; [exact Hx | now apply Z.eqb_eq]. }
      congruence. }
    intros s [<-|Hs]; unfold get_subject_name_by_id; cbn [List.filter].
    + now rewrite Z.eqb_refl.
    + destruct (Z.eqb_spec (subject_id a) (subject_id s)) as [Heq|_].
      * exfalso. exact (Hfresh s Hs Heq).
      * apply (IH Hrest); [|exact Hs].
        intros id Hno. unfold get_subject_name_by_id.
        destruct (List.filter _ rest) as [|row l] eqn:E; [reflexivity|].
        exfalso.
        assert (Hrow : In row (List.filter (fun s => subject_id s =? id) rest))
          by (rewrite E; now left).
        apply filter_In in Hrow as [Hin Hrow]. apply Z.eqb_eq in Hrow.
        exact (Hno row Hin Hrow).
  - apply Hmiss. intros s Hs Heq.
    pose proof (next_subject_id_above subjects s Hs). lia.
Qed.

Lemma get_subject_name_by_id_lookup_witness :
  get_subject_name_by_id some_subjects 391 = "未設定".
Proof.
  apply (get_subject_name_by_id_lookup some_subjects). reflexivity.
Defined.

(** ** What the fallback of [_parse_hhmm_or_hhmmss] adds *)

Ltac regex_step :=
  cbn [match_seq rmatch re_H re_M chr rng digit flat_map map app with_groups
       String.append].

(** Decide the class tests of a goal one by one: a test on the colon by
    evaluation, a test already decided by its equation, any other by cases. *)
Ltac split_tests :=
  repeat (match goal with
          | |- context [cls_test ?k ":"] =>
              let v := eval cbv in (cls_test k ":") in
              change (cls_test k ":") with v
          | H : cls_test ?k ?c = _ |- context [cls_test ?k ?c] => rewrite H
          | |- context [cls_test ?k ?c] => destruct (cls_test k c) eqn:?
          end; regex_step).

Lemma no_colon_cons c s :
  no_colon (String c s) = true -> cls_test (Lit ":") c = false /\ no_colon s = true.
Proof.
  cbn [no_colon]. intros H. apply andb_true_iff in H as [H1 H2].
  apply negb_true_iff in H1. auto.
Qed.

Lemma two_not_below c :
  cls_test (Lit "2") c = true -> cls_test (Range "0" "1") c = true -> False.
Proof.
  cbn [cls_test]. intros H. apply Ascii.eqb_eq in H. subst c. discriminate.
Qed.

(** [%H] and the colon in front of any text. *)
Lemma match_hour_text a b :
  no_colon a = true ->
  match_seq [re_H; chr ":"] (a +:+ String ":" b)
  = if hour_text a then [(b, [("H"%char, a)])] else [].
Proof.
  intros Ha.
  destruct a as [|c1 [|c2 [|c3 a']]]; unfold hour_text;
    repeat match goal with
           | H : no_colon (String _ _) = true |- _ =>
               apply no_colon_cons in H as [? ?]
           end;
    regex_step; split_tests;
    solve [reflexivity | exfalso; eauto using two_not_below].
Qed.

(** [%M] at the end of the text. *)
Lemma match_minute_end_text b :
  match match_seq [re_M] b with
  | (EmptyString, g) :: _ => minute_end_text b = true /\ g = [("M"%char, b)]
  | _ => minute_end_text b = false
  end.
Proof.
  destruct b as [|c1 [|c2 [|c3 b']]]; unfold minute_end_text;
    regex_step; split_tests; auto.
Qed.

(** What a class test says about the code of the character. *)
Lemma cls_range lo hi c :
  cls_test (Range lo hi) c = true -> code lo <= code c <= code hi.
Proof.
  cbn [cls_test]. intros H. apply andb_true_iff in H as [H1 H2].
  apply Z.leb_le in H1, H2. lia.
Qed.

Lemma cls_digit c : cls_test AnyDigit c = true -> 48 <= code c <= 57.
Proof.
  cbn [cls_test]. unfold is_digit. cbv zeta. intros H.
  apply andb_true_iff in H as [H1 H2]. apply Z.leb_le in H1, H2. lia.
Qed.

Lemma is_digit_code c : 48 <= code c <= 57 -> is_digit c = true.
Proof.
  intros H. unfold is_digit. cbv zeta.
  apply andb_true_iff. split; apply Z.leb_le; lia.
Qed.

Lemma int_digit c : is_digit c = true -> int (String c EmptyString) = Return (digit_value c).
Proof.
  intros H. unfold int. rewrite strip_all_digits by (cbn [all_digits]; now rewrite H).
  cbn [digits_value]. rewrite H. reflexivity.
Qed.

Lemma int_two_digits c1 c2 :
  is_digit c1 = true -> is_digit c2 = true ->
  int (String c1 (String c2 EmptyString)) = Return (10 * digit_value c1 + digit_value c2).
Proof.
  intros H1 H2. unfold int.
  rewrite strip_all_digits by (cbn [all_digits]; now rewrite H1, H2).
  cbn [digits_value]. rewrite H1, H2. reflexivity.
Qed.

Ltac class_facts :=
  repeat match goal with
         | H : _ && _ = true |- _ => apply andb_true_iff in H as [? ?]
         | H : _ || _ = true |- _ => apply orb_true_iff in H as [?|?]
         | H : cls_test (Range _ _) _ = true |- _ => apply cls_range in H
         | H : cls_test AnyDigit _ = true |- _ => apply cls_digit in H
         | H : cls_test (Lit _) _ = true |- _ =>
             cbn [cls_test] in H; apply Ascii.eqb_eq in H; subst
         end;
  change (code "0") with 48 in *; change (code "1") with 49 in *;
  change (code "2") with 50 in *; change (code "3") with 51 in *;
  change (code "5") with 53 in *.

(** The value [int] gives to an hour text and to a minute text. *)
Lemma int_hour_text a :
  hour_text a = true -> exists v, int a = Return v /\ 0 <= v <= 23.
Proof.
  destruct a as [|c1 [|c2 [|c3 a']]]; unfold hour_text; try discriminate;
    intros H; class_facts.
  - exists (digit_value c1). rewrite int_digit by now apply is_digit_code.
    unfold digit_value. split; [reflexivity | lia].
  - exists (10 * digit_value "2" + digit_value c2).
    rewrite int_two_digits by (reflexivity || apply is_digit_code; lia).
    unfold digit_value. change (code "2") with 50. split; [reflexivity | lia].
  - exists (10 * digit_value c1 + digit_value c2).
    rewrite int_two_digits by (apply is_digit_code; lia).
    unfold digit_value. split; [reflexivity | lia].
Qed.

Lemma int_minute_end_text b :
  minute_end_text b = true -> exists v, int b = Return v /\ 0 <= v <= 59.
Proof.
  destruct b as [|c1 [|c2 [|c3 b']]]; unfold minute_end_text; try discriminate;
    intros H; class_facts.
  - exists (digit_value c1). rewrite int_digit by now apply is_digit_code.
    unfold digit_value. split; [reflexivity | lia].
  - exists (10 * digit_value c1 + digit_value c2).
    rewrite int_two_digits by (apply is_digit_code; lia).
    unfold digit_value. split; [reflexivity | lia].
Qed.

(** [strptime] with ["%H:%M"] on a text cut at its first colon: it returns
    exactly when the part before is an hour text and the part after a minute
    text, and then with their values. *)
Lemma strptime_hour_minute a b :
  no_colon a = true ->
  if hour_text a && minute_end_text b
  then exists h m, int a = Return h /\ int b = Return m
                   /\ strptime (a +:+ String ":" b) "%H:%M"
                      = Return (mk_datetime 1900 1 1 h m 0 0)
  else strptime (a +:+ String ":" b) "%H:%M" = Raise ValueError.
Proof.
  intros Ha. unfold strptime.
  change (pattern "%H:%M") with (Some ([re_H; chr ":"] ++ [re_M])%list).
  cbv beta iota. rewrite match_seq_app, (match_hour_text a b Ha).
  destruct (hour_text a) eqn:Hh; cbn [andb flat_map app]; [|reflexivity].
  rewrite app_nil_r.
  pose proof (match_minute_end_text b) as Hm.
  destruct (match_seq [re_M] b) as [|[[|x rest] g] l].
  - rewrite Hm. reflexivity.
  - destruct Hm as [Hm ->]. rewrite Hm.
    destruct (int_hour_text a Hh) as (h & Eh & Hhr).
    destruct (int_minute_end_text b Hm) as (m & Em & Hmr).
    exists h, m. split; [exact Eh|]. split; [exact Em|].
    cbn [map with_groups app convert_groups convert_group].
    rewrite Eh. cbn [obind]. rewrite Em. cbn [obind].
    fields. now apply datetime_new_time.
  - rewrite Hm. reflexivity.
Qed.

(** [split] into two parts cuts the text at its only colon. *)
Lemma split_nonempty sep x : split sep x <> [].
Proof.
  induction x as [|c x IH]; cbn [split]; [discriminate|].
  destruct (Ascii.eqb c sep); [discriminate|].
  destruct (split sep x); discriminate.
Qed.

Lemma no_colon_String c s :
  Ascii.eqb c ":" = false -> no_colon s = true -> no_colon (String c s) = true.
Proof. intros Hc Hs. cbn [no_colon cls_test]. now rewrite Hc, Hs. Qed.

Lemma split_one x : forall m,
  split ":" x = [m] -> x = m /\ no_colon m = true.
Proof.
  induction x as [|c x IH]; intros m; cbn [split].
  - intros [= <-]. split; reflexivity.
  - destruct (Ascii.eqb c ":") eqn:Ec.
    + intros [= _ E]. now apply split_nonempty in E.
    + destruct (split ":" x) as [|p ps] eqn:E; [now apply split_nonempty in E|].
      intros [= <- ->]. destruct (IH p eq_refl) as [-> Hp].
      split; [reflexivity | now apply no_colon_String].
Qed.

Lemma split_two x : forall h m,
  split ":" x = [h; m] ->
  x = h +:+ String ":" m /\ no_colon h = true /\ no_colon m = true.
Proof.
  induction x as [|c x IH]; intros h m; cbn [split]; [discriminate|].
  destruct (Ascii.eqb c ":") eqn:Ec.
  - intros [= <- E]. apply Ascii.eqb_eq in Ec as ->.
    destruct (split_one x m E) as [-> Hm]. repeat split; assumption.
  - destruct (split ":" x) as [|p ps] eqn:E; [discriminate|].
    intros [= <- ->]. destruct (IH p m eq_refl) as (-> & Hp & Hm).
    repeat split; [now apply no_colon_String | exact Hm].
Qed.

(** [zfill] on a part that is not empty: it adds nothing [%H] or [%M]
    could read that the part did not have. *)
Lemma zfill_long c1 c2 s :
  zfill 2 (String c1 (String c2 s)) = String c1 (String c2 s).
Proof. reflexivity. Qed.

Lemma zfill_one c :
  zfill 2 (String c EmptyString)
  = if Ascii.eqb c "+" || Ascii.eqb c "-"
    then String c (String "0" EmptyString)
    else String "0" (String c EmptyString).
Proof. reflexivity. Qed.

Lemma no_colon_zfill s : no_colon s = true -> no_colon (zfill 2 s) = true.
Proof.
  destruct s as [|c1 [|c2 s]]; intros H; [reflexivity | | exact H].
  rewrite zfill_one. apply no_colon_cons in H as [Hc _]. cbn [cls_test] in Hc.
  destruct (_ || _); cbn [no_colon cls_test]; now rewrite Hc.
Qed.

Lemma hour_text_zfill h :
  h <> EmptyString -> hour_text (zfill 2 h) = true -> hour_text h = true.
Proof.
  destruct h as [|c1 [|c2 s]]; intros Hne H; [congruence | | exact H].
  rewrite zfill_one in H.
  destruct (Ascii.eqb c1 "+") eqn:E1; [apply Ascii.eqb_eq in E1 as ->; discriminate|].
  destruct (Ascii.eqb c1 "-") eqn:E2; [apply Ascii.eqb_eq in E2 as ->; discriminate|].
  exact H.
Qed.

Lemma minute_end_text_zfill m :
  m <> EmptyString -> minute_end_text (zfill 2 m) = true -> minute_end_text m = true.
Proof.
  destruct m as [|c1 [|c2 s]]; intros Hne H; [congruence | | exact H].
  rewrite zfill_one in H.
  destruct (Ascii.eqb c1 "+") eqn:E1; [apply Ascii.eqb_eq in E1 as ->; discriminate|].
  destruct (Ascii.eqb c1 "-") eqn:E2; [apply Ascii.eqb_eq in E2 as ->; discriminate|].
  exact H.
Qed.

(** X16: whatever [_parse_hhmm_or_hhmmss] returns comes from one of its two
    formats read by [strptime] on the stripped text, except for a text with
    one colon and an empty hour or an empty minute: the [zfill] fallback
    accepts nothing else that the two formats reject. *)
Theorem parse_fallback_extent (s : string) (t : time) :
  _parse_hhmm_or_hhmmss (Some s) = Return t ->
  (exists dt, strptime (strip s) "%H:%M" = Return dt /\ t = dt_time dt)
  \/ (exists dt, strptime (strip s) "%H:%M:%S" = Return dt /\ t = dt_time dt)
  \/ (exists h m, split ":" (strip s) = [h; m]
                  /\ (h = EmptyString \/ m = EmptyString)).
Proof.
  unfold _parse_hhmm_or_hhmmss.
  set (text := strip s). cbn [try_time_formats].
  destruct (strptime text "%H:%M") as [dt|e1] eqn:E1.
  { cbn. intros [= <-]. left. eauto. }
  rewrite (strptime_raises _ _ _ E1) in *. cbn [obind try_except_ValueError].
  destruct (strptime text "%H:%M:%S") as [dt|e2] eqn:E2.
  { cbn. intros [= <-]. right. left. eauto. }
  rewrite (strptime_raises _ _ _ E2). cbn [obind try_except_ValueError].
  destruct (split ":" text) as [|h [|m [|x rest]]] eqn:Es; try discriminate.
  intros E3. right. right. exists h, m. split; [reflexivity|].
  destruct (string_dec h EmptyString) as [|Hh]; [now left|].
  destruct (string_dec m EmptyString) as [|Hm]; [now right|].
  exfalso.
  destruct (split_two text h m Es) as (Et & Hch & Hcm).
  pose proof (strptime_hour_minute (zfill 2 h) (zfill 2 m) (no_colon_zfill h Hch)) as Hz.
  change (zfill 2 h +:+ ":" +:+ zfill 2 m)
    with (zfill 2 h +:+ String ":" (zfill 2 m)) in E3.
  destruct (hour_text (zfill 2 h) && minute_end_text (zfill 2 m)) eqn:Ez;
    [|rewrite Hz in E3; discriminate].
  apply andb_true_iff in Ez as [Ezh Ezm].
  pose proof (strptime_hour_minute h m Hch) as Hd.
  rewrite (hour_text_zfill h Hh Ezh), (minute_end_text_zfill m Hm Ezm) in Hd.
  destruct Hd as (vh & vm & _ & _ & Hd).
  rewrite <- Et in Hd. congruence.
Qed.

Lemma parse_fallback_extent_witness :
  (exists dt, strptime (strip "8:") "%H:%M" = Return dt /\ mk_time 8 0 0 0 = dt_time dt)
  \/ (exists dt, strptime (strip "8:") "%H:%M:%S" = Return dt
                 /\ mk_time 8 0 0 0 = dt_time dt)
  \/ (exists h m, split ":" (strip "8:") = [h; m]
                  /\ (h = EmptyString \/ m = EmptyString)).
Proof. apply (parse_fallback_extent "8:" (mk_time 8 0 0 0)). reflexivity. Defined.

(** ** Texts with one colon *)

Lemma split_no_colon b : no_colon b = true -> split ":" b = [b].
Proof.
  induction b as [|c b IH]; [reflexivity|].
  intros H. apply no_colon_cons in H as [Hc Hb]. cbn [cls_test] in Hc.
  cbn [split]. now rewrite Hc, (IH Hb).
Qed.

Lemma split_one_colon a b :
  no_colon a = true -> no_colon b = true ->
  split ":" (a +:+ String ":" b) = [a; b].
Proof.
  intros Ha Hb. induction a as [|c a IH]; cbn [String.append split].
  - change (Ascii.eqb ":" ":") with true. cbv iota. now rewrite split_no_colon.
  - apply no_colon_cons in Ha as [Hc Ha]. cbn [cls_test] in Hc.
    now rewrite Hc, (IH Ha).
Qed.

(** The format with seconds needs two colons. *)
Lemma match_minute_colon b :
  no_colon b = true -> match_seq [re_M; chr ":"; re_S] b = [].
Proof.
  intros Hb.
  destruct b as [|c1 [|c2 [|c3 b']]];
    repeat match goal with
           | H : no_colon (String _ _) = true |- _ =>
               apply no_colon_cons in H as [? ?]
           end;
    regex_step; split_tests; reflexivity.
Qed.

Lemma strptime_one_colon a b :
  no_colon a = true -> no_colon b = true ->
  strptime (a +:+ String ":" b) "%H:%M:%S" = Raise ValueError.
Proof.
  intros Ha Hb. unfold strptime.
  change (pattern "%H:%M:%S")
    with (Some ([re_H; chr ":"] ++ [re_M; chr ":"; re_S])%list).
  cbv beta iota. rewrite match_seq_app, (match_hour_text a b Ha).
  destruct (hour_text a); cbn [flat_map app]; [|reflexivity].
  now rewrite (match_minute_colon b Hb).
Qed.

(** On a text with one colon the function gives what ["%H:%M"] reads, and
    when that fails what it reads from the padded parts. *)
Lemma parse_one_colon a b :
  no_colon a = true -> no_colon b = true ->
  strip (a +:+ String ":" b) = a +:+ String ":" b ->
  _parse_hhmm_or_hhmmss (Some (a +:+ String ":" b))
  = match strptime (a +:+ String ":" b) "%H:%M" with
    | Return dt => Return (dt_time dt)
    | Raise _ =>
        dt <-- strptime (zfill 2 a +:+ String ":" (zfill 2 b)) "%H:%M" ;;
        Return (dt_time dt)
    end.
Proof.
  intros Ha Hb Hs. unfold _parse_hhmm_or_hhmmss. rewrite Hs.
  cbn [try_time_formats].
  destruct (strptime (a +:+ String ":" b) "%H:%M") as [dt|e1] eqn:E1;
    [reflexivity|].
  rewrite (strptime_raises _ _ _ E1). cbn [obind try_except_ValueError].
  rewrite (strptime_one_colon a b Ha Hb). cbn [obind try_except_ValueError].
  now rewrite (split_one_colon a b Ha Hb).
Qed.

Lemma cls_digit_not_space c : cls_test AnyDigit c = true -> is_space c = false.
Proof. exact (digit_not_space c). Qed.

Lemma cls_digit_not_colon c :
  cls_test AnyDigit c = true -> cls_test (Lit ":") c = false.
Proof.
  intros H. cbn [cls_test]. destruct (Ascii.eqb_spec c ":") as [->|]; [discriminate H|].
  reflexivity.
Qed.

Lemma cls_range_digit lo hi c :
  48 <= code lo -> code hi <= 57 ->
  cls_test (Range lo hi) c = true -> cls_test AnyDigit c = true.
Proof.
  intros Hlo Hhi H. apply cls_range in H. apply is_digit_code. lia.
Qed.

(** The characters of an hour text and of a minute text are digits. *)
Lemma hour_text_digits a : hour_text a = true -> all_digits a = true.
Proof.
  destruct a as [|c1 [|c2 [|c3 a']]]; unfold hour_text; try discriminate;
    intros H; class_facts; cbn [all_digits];
    rewrite ?andb_true_r, ?andb_true_iff; repeat split;
    (reflexivity || apply is_digit_code; lia).
Qed.

Lemma minute_end_text_digits b : minute_end_text b = true -> all_digits b = true.
Proof.
  destruct b as [|c1 [|c2 [|c3 b']]]; unfold minute_end_text; try discriminate;
    intros H; class_facts; cbn [all_digits];
    rewrite ?andb_true_r, ?andb_true_iff; repeat split;
    apply is_digit_code; lia.
Qed.

Lemma all_digits_no_colon s : all_digits s = true -> no_colon s = true.
Proof.
  induction s as [|c s IH]; [reflexivity|].
  cbn [all_digits no_colon]. intros H. apply andb_true_iff in H as [Hc Hs].
  now rewrite (cls_digit_not_colon c Hc), (IH Hs).
Qed.

(** [strip] keeps digits around a colon. *)
Lemma rstrip_digits_colon a : forall b,
  all_digits a = true -> all_digits b = true ->
  rstrip (a +:+ String ":" b) = a +:+ String ":" b.
Proof.
  induction a as [|c a IH]; intros b Ha Hb; cbn [String.append].
  - cbn [rstrip]. rewrite (rstrip_all_digits b Hb). now destruct b.
  - cbn [all_digits] in Ha. apply andb_true_iff in Ha as [_ Ha].
    apply rstrip_keep; [now apply IH | now destruct a].
Qed.

Lemma strip_digits_colon a b :
  all_digits a = true -> all_digits b = true ->
  strip (a +:+ String ":" b) = a +:+ String ":" b.
Proof.
  intros Ha Hb. unfold strip.
  replace (lstrip (a +:+ String ":" b)) with (a +:+ String ":" b);
    [now apply rstrip_digits_colon|].
  destruct a as [|c a]; [reflexivity|].
  cbn [all_digits] in Ha. apply andb_true_iff in Ha as [Hc _].
  cbn [String.append lstrip]. now rewrite (digit_not_space c Hc).
Qed.

(** Padding keeps an hour text, a minute text and their values. *)
Lemma zfill_digit c :
  is_digit c = true ->
  zfill 2 (String c EmptyString) = String "0" (String c EmptyString).
Proof.
  intros H. rewrite zfill_one.
  destruct (Ascii.eqb_spec c "+") as [->|_]; [discriminate H|].
  destruct (Ascii.eqb_spec c "-") as [->|_]; [discriminate H|].
  reflexivity.
Qed.

Lemma int_zfill s :
  all_digits s = true -> (1 <= String.length s <= 2)%nat -> int (zfill 2 s) = int s.
Proof.
  destruct s as [|c1 [|c2 [|c3 s]]]; cbn [String.length]; try lia; intros H _;
    [|reflexivity].
  cbn [all_digits] in H. apply andb_true_iff in H as [Hc _].
  rewrite (zfill_digit c1 Hc), int_two_digits, int_digit by (reflexivity || exact Hc).
  reflexivity.
Qed.

Lemma hour_text_padded h : hour_text h = true -> hour_text (zfill 2 h) = true.
Proof.
  destruct h as [|c1 [|c2 [|c3 s]]]; try discriminate; [|trivial].
  intros H. rewrite zfill_digit by exact H. exact H.
Qed.

Lemma minute_end_text_padded m :
  minute_end_text m = true -> minute_end_text (zfill 2 m) = true.
Proof.
  destruct m as [|c1 [|c2 [|c3 s]]]; try discriminate; [|trivial].
  intros H. rewrite zfill_digit by exact H. exact H.
Qed.

Lemma hour_text_length h : hour_text h = true -> (1 <= String.length h <= 2)%nat.
Proof. destruct h as [|c1 [|c2 [|c3 s]]]; try discriminate; cbn; lia. Qed.

Lemma minute_end_text_length m :
  minute_end_text m = true -> (1 <= String.length m <= 2)%nat.
Proof. destruct m as [|c1 [|c2 [|c3 s]]]; try discriminate; cbn; lia. Qed.

(** X17: an hour of one or two digits up to 23 and a minute of one or two
    digits up to 59, joined by a colon, are read as that time; the hour
    followed by the colon alone is read as that hour at minute 0, and the
    colon followed by the minute alone as hour 0 at that minute. *)
Theorem parse_fields (h m : string) :
  hour_text h = true -> minute_end_text m = true ->
  exists vh vm,
    int h = Return vh /\ int m = Return vm
    /\ 0 <= vh <= 23 /\ 0 <= vm <= 59
    /\ _parse_hhmm_or_hhmmss (Some (h +:+ ":" +:+ m)) = Return (mk_time vh vm 0 0)
    /\ _parse_hhmm_or_hhmmss (Some (h +:+ ":")) = Return (mk_time vh 0 0 0)
    /\ _parse_hhmm_or_hhmmss (Some (":" +:+ m)) = Return (mk_time 0 vm 0 0).
Proof.
  intros Hh Hm.
  pose proof (hour_text_digits h Hh) as Dh.
  pose proof (minute_end_text_digits m Hm) as Dm.
  pose proof (all_digits_no_colon h Dh) as Ch.
  pose proof (all_digits_no_colon m Dm) as Cm.
  destruct (int_hour_text h Hh) as (vh & Eh & Rh).
  destruct (int_minute_end_text m Hm) as (vm & Em & Rm).
  exists vh, vm. repeat (split; [assumption || lia|]).
  change (h +:+ ":" +:+ m) with (h +:+ String ":" m).
  change (h +:+ ":") with (h +:+ String ":" EmptyString).
  change (":" +:+ m) with (EmptyString +:+ String ":" m).
  rewrite !parse_one_colon by (trivial; now apply strip_digits_colon).
  repeat split.
  - pose proof (strptime_hour_minute h m Ch) as H. rewrite Hh, Hm in H.
    destruct H as (x & y & Ex & Ey & ->).
    change (Return (mk_time x y 0 0) = Return (mk_time vh vm 0 0)). congruence.
  - pose proof (strptime_hour_minute h EmptyString Ch) as H.
    rewrite andb_false_r in H. rewrite H.
    pose proof (strptime_hour_minute (zfill 2 h) (zfill 2 EmptyString)
                  (no_colon_zfill h Ch)) as H2.
    rewrite (hour_text_padded h Hh) in H2.
    destruct H2 as (x & y & Ex & Ey & ->).
    rewrite (int_zfill h Dh (hour_text_length h Hh)) in Ex.
    change (Return (mk_time x y 0 0) = Return (mk_time vh 0 0 0)).
    cbv in Ey. congruence.
  - pose proof (strptime_hour_minute EmptyString m eq_refl) as H.
    cbn [hour_text andb] in H. rewrite H.
    pose proof (strptime_hour_minute (zfill 2 EmptyString) (zfill 2 m) eq_refl) as H2.
    rewrite (minute_end_text_padded m Hm) in H2.
    destruct H2 as (x & y & Ex & Ey & ->).
    rewrite (int_zfill m Dm (minute_end_text_length m Hm)) in Ey.
    change (Return (mk_time x y 0 0) = Return (mk_time 0 vm 0 0)).
    cbv in Ex. congruence.
Qed.

Lemma parse_fields_witness :
  exists vh vm,
    int "8" = Return vh /\ int "50" = Return vm
    /\ 0 <= vh <= 23 /\ 0 <= vm <= 59
    /\ _parse_hhmm_or_hhmmss (Some ("8" +:+ ":" +:+ "50")) = Return (mk_time vh vm 0 0)
    /\ _parse_hhmm_or_hhmmss (Some ("8" +:+ ":")) = Return (mk_time vh 0 0 0)
    /\ _parse_hhmm_or_hhmmss (Some (":" +:+ "50")) = Return (mk_time 0 vm 0 0).
Proof. apply (parse_fields "8" "50"); reflexivity. Defined.
